(** * typescript-simple-loader: the incremental compilation host

    A shallow embedding of [src/typescript-simple-loader.ts] and the
    properties of its file registry, on-demand loader, watch-cycle refresh,
    compile request, diagnostics formatting and session cache.

    Conventions of the embedding.
    - A JavaScript object used as a dictionary ([FilesMap],
      [loaderInstances]) is a [gmap] over its own string keys; keys are file
      paths and session ids, so properties inherited from the object
      prototype play no role.
    - [undefined] results are [None]; a thrown exception is an explicit
      outcome ([None] of a fallible read, [Threw] of a request).
    - [version] counts updates from 0; JavaScript numbers are exact on the
      integers a run can reach, so it is a [Z] and [version++] is [+ 1].
    - The file system, the compiler service, [JSON.parse] and the path
      helpers are collaborators outside the repository: the file system is a
      record of functions, the others are the fields of the class
      [Runtime]. *)

From stdpp Require Import gmap strings list fin_maps pretty.

Set Warnings "-register-all".
Open Scope Z_scope.

(** ** Data model *)

(** [FilesMap = ts.Map<{ version: number, text: string }>] *)
Record FileRecord := mkFile { version : Z; text : string }.

Abbreviation FilesMap := (gmap string FileRecord).

(** [fs.Stats], as far as the loader looks at it. *)
Record Stats := mkStats { isFile : bool; isDirectory : bool }.

(** The file system during one synchronous call. [None] is a thrown
    exception ([ENOENT], [EACCES], ...). *)
Record FileSystem := mkFS {
  statSync : string -> option Stats;
  readFileSync : string -> option string
}.

(** The part of the webpack loader context the code reads. *)
Record WebPackLoader := mkLoader {
  query : string;
  resourcePath : string;
  context : string;
  sourceMap : bool;
  options_context : string
}.

(** Calls back into webpack, in the order they are made. *)
Inductive HostEvent :=
| Cacheable (resource : string)
| AddDependency (resource fileName : string)
| EmitError (resource message : string).

(** ** Small helpers *)

(** [fileExists]: [statSync(fileName).isFile()], [false] when it throws. *)
Definition fileExists (fs : FileSystem) (fileName : string) : bool :=
  match statSync fs fileName with
  | Some st => isFile st
  | None => false
  end.

(** [s.endsWith(suffix)] on strings. *)
Definition ends_with (suffix s : string) : bool :=
  let n := String.length s in
  let m := String.length suffix in
  (m <=? n)%nat && String.eqb (String.substring (n - m) m s) suffix.

(** [isDefinition]: [/\.d\.ts$/.test(fileName)]; without the [m] flag [$]
    matches at the end of the input only. *)
Definition isDefinition (fileName : string) : bool :=
  ends_with ".d.ts" fileName.

(** ** The registry update of a compile request (loader, lines 62-73) *)

(** [file.text = content] on the record stored under [fileName]. *)
Definition set_text (fileName content : string) (files : FilesMap) : FilesMap :=
  alter (fun f => mkFile (version f) content) fileName files.

(** [file.version++] on the record stored under [fileName]. *)
Definition bump_version (fileName : string) (files : FilesMap) : FilesMap :=
  alter (fun f => mkFile (version f + 1) (text f)) fileName files.

(** [if (!file) file = files[fileName] = { version: 0, text: '' }]. *)
Definition ensure_file (fileName : string) (files : FilesMap) : FilesMap :=
  match files !! fileName with
  | Some _ => files
  | None => <[fileName := mkFile 0 ""]> files
  end.

Definition update_file (fileName content : string) (files : FilesMap) : FilesMap :=
  bump_version fileName (set_text fileName content (ensure_file fileName files)).

(** ** The language-service host *)

(** What the host methods read and write: the registry of the session and
    the calls made into webpack. *)
Record Host := mkHost { files : FilesMap; events : list HostEvent }.

(** [getScriptSnapshot]. [currentLoader] is the module-level variable of the
    same name. The result is the text of the snapshot, [None] for
    [undefined]. *)
Definition getScriptSnapshot (fs : FileSystem) (currentLoader : option WebPackLoader)
    (fileName : string) (h : Host) : option string * Host :=
  let exists_ := fileExists fs fileName in
  let file := files h !! fileName in
  if exists_ then
    let loaded :=
      match file with
      | Some f => Some (f, files h)
      | None =>
          match readFileSync fs fileName with
          | Some t => let f := mkFile 0 t in Some (f, <[fileName := f]> (files h))
          | None => None
          end
      end in
    match loaded with
    | None => (None, h)
    | Some (f, files') =>
        let events' :=
          match currentLoader with
          | Some l =>
              if isDefinition fileName
              then events h ++ [AddDependency (resourcePath l) fileName]
              else events h
          | None => events h
          end in
        (Some (text f), mkHost files' events')
    end
  else (None, mkHost (delete fileName (files h)) (events h)).

(** [getScriptVersion]: [files[fileName] && files[fileName].version.toString()]. *)
Definition getScriptVersion (fileName : string) (h : Host) : option string :=
  (fun f => pretty (version f)) <$> files h !! fileName.

(** [getScriptFileNames]: [config.fileNames.concat(Object.keys(files))];
    the keys come in the order of the map, not in insertion order. *)
Definition getScriptFileNames (fileNames : list string) (h : Host) : list string :=
  fileNames ++ (map_to_list (files h)).*1.

(** ** The watch-run plugin *)

Inductive WatchResult :=
| WatchDone (files : FilesMap)   (* every key handled, [cb()] called *)
| WatchThrew (files : FilesMap). (* [readFileSync] threw; [cb] is not called *)

(** The [forEach] over [Object.keys(mtimes)]. *)
Fixpoint watch_run (fs : FileSystem) (keys : list string) (files : FilesMap)
    : WatchResult :=
  match keys with
  | [] => WatchDone files
  | fileName :: rest =>
      match files !! fileName with
      | Some file =>
          if isDefinition fileName then
            match readFileSync fs fileName with
            | Some t =>
                watch_run fs rest
                  (bump_version fileName (set_text fileName t files))
            | None => WatchThrew files
            end
          else watch_run fs rest files
      | None => watch_run fs rest files
      end
  end.

(** ** The compiler service, seen from the host

    The language service is the TypeScript library's; all the loader knows
    is that a call into it calls back into the host any number of times and
    then returns or throws. A call is therefore a finite tree of host calls. *)
Inductive Service (R : Type) : Type :=
| Return (r : R)
| Raise
| CallFileNames (k : list string -> Service R)
| CallVersion (fileName : string) (k : option string -> Service R)
| CallSnapshot (fileName : string) (k : option string -> Service R).

Arguments Return {R} r.
Arguments Raise {R}.
Arguments CallFileNames {R} k.
Arguments CallVersion {R} fileName k.
Arguments CallSnapshot {R} fileName k.

(** Running a service call against the host of one session. [None] is a
    thrown exception. *)
Fixpoint run_service {R : Type} (fs : FileSystem)
    (currentLoader : option WebPackLoader) (fileNames : list string)
    (s : Service R) (h : Host) : option R * Host :=
  match s with
  | Return r => (Some r, h)
  | Raise => (None, h)
  | CallFileNames k =>
      run_service fs currentLoader fileNames (k (getScriptFileNames fileNames h)) h
  | CallVersion fileName k =>
      run_service fs currentLoader fileNames (k (getScriptVersion fileName h)) h
  | CallSnapshot fileName k =>
      let '(snapshot, h') := getScriptSnapshot fs currentLoader fileName h in
      run_service fs currentLoader fileNames (k snapshot) h'
  end.

(** [ts.OutputFile] and [ts.EmitOutput]. *)
Record OutputFile := mkOutputFile { name : string; output_text : string }.

Record EmitOutput := mkEmitOutput {
  outputFiles : list OutputFile;
  emitSkipped : bool
}.

(** ** Diagnostics *)

(** [ts.DiagnosticMessageChain] and the type of [diagnostic.messageText]. *)
Inductive DiagnosticMessageChain :=
| mkChain (chain_text : string) (next : option DiagnosticMessageChain).

Inductive MessageText :=
| MessageString (s : string)
| MessageChain (c : DiagnosticMessageChain).

Record LineAndCharacter := mkLineAndCharacter { line : Z; character : Z }.

(** [ts.SourceFile]: its name and its own line index. *)
Record SourceFile := mkSourceFile {
  fileName : string;
  getLineAndCharacterOfPosition : Z -> LineAndCharacter
}.

Record Diagnostic := mkDiagnostic {
  file : option SourceFile;
  start : Z;
  messageText : MessageText
}.

(** [class DiagosticError] *)
Record DiagosticError := mkDiagosticError {
  error_name : string;
  message : string;
  error_file : option string;
  diagnostic_of : Diagnostic;
  error_context : string
}.

(** ** JSON values, for the source map *)
Inductive JsValue :=
| JNull
| JBool (b : bool)
| JNumber (n : Z)
| JString (s : string)
| JArray (items : list JsValue)
| JObject (props : list (string * JsValue)).

(** A JavaScript object as its own properties, in insertion order. *)
Abbreviation JsObject := (list (string * JsValue)).

(** [obj[key]] *)
Fixpoint get_prop (key : string) (obj : JsObject) : option JsValue :=
  match obj with
  | [] => None
  | (k, v) :: rest => if String.eqb key k then Some v else get_prop key rest
  end.

(** [obj[key] = value]: an existing property keeps its place. *)
Fixpoint set_prop (key : string) (value : JsValue) (obj : JsObject) : JsObject :=
  match obj with
  | [] => [(key, value)]
  | (k, v) :: rest =>
      if String.eqb key k then (k, value) :: rest
      else (k, v) :: set_prop key value rest
  end.

(** The loader options read from the query. *)
Record Options := mkOptions {
  compiler : option string;
  configFile : option string
}.

(** The parsed configuration, as far as the host reads it. *)
Record ParsedConfig := mkConfig {
  config_fileNames : list string;
  config_errors : list Diagnostic
}.

(** ** Collaborators outside the repository *)
Class Runtime := {
  (** [ts.flattenDiagnosticMessageText(messageText, newLine)] *)
  flattenDiagnosticMessageText : MessageText -> string -> string;
  (** [JSON.parse] of the emitted source map, used at the type [SourceMap],
      an object; [None] when it throws. *)
  JSON_parse : string -> option JsObject;
  (** [path.relative] and loader-utils' [urlToRequest] and [parseQuery]
      ([None] when it throws). *)
  relative : string -> string -> string;
  urlToRequest : string -> string;
  parseQuery : string -> option Options;
  (** The state of a language service. *)
  LanguageService : Type;
  (** What [createService] does before it builds the host: load the
      compiler, find, read and parse the configuration. [None] when any of
      these throws. *)
  loadConfig : WebPackLoader -> Options -> FileSystem -> option ParsedConfig;
  (** [TS.createLanguageService(serviceHost, TS.createDocumentRegistry())] *)
  createLanguageService : WebPackLoader -> ParsedConfig -> LanguageService;
  (** [service.getEmitOutput(fileName)]: the calls it makes into the host,
      then the output and the service's next state, or an exception. *)
  getEmitOutput : LanguageService -> string
                  -> Service (EmitOutput * LanguageService);
  (** [service.getProgram()] followed by [getSemanticDiagnostics()] and
      [getSyntacticDiagnostics()] of the program, in that order. *)
  getProgramDiagnostics : LanguageService
      -> Service (list Diagnostic * list Diagnostic * LanguageService)
}.

Definition newline : string := String (Ascii.ascii_of_nat 10) EmptyString.

Section WithRuntime.
Context `{RT : Runtime}.

(** [formatDiagnostic] *)
Definition formatDiagnostic (diagnostic : Diagnostic) : string :=
  let message := flattenDiagnosticMessageText (messageText diagnostic) newline in
  match file diagnostic with
  | Some f =>
      let lc := getLineAndCharacterOfPosition f (start diagnostic) in
      "(" +:+ pretty (line lc + 1) +:+ "," +:+ pretty (character lc + 1)
          +:+ "): " +:+ message
  | None => message
  end.

(** The constructor of [DiagosticError]. *)
Definition new_DiagosticError (diagnostic : Diagnostic) (ctx : string)
    : DiagosticError :=
  mkDiagosticError "DiagnosticError"
    (formatDiagnostic diagnostic)
    (match file diagnostic with
     | Some f => Some (urlToRequest (relative ctx (fileName f)))
     | None => None
     end)
    diagnostic ctx.

(** ** The compile request *)

(** [interface LoaderInstance], with what the closures of [createService]
    hold besides [files]: the parsed configuration and the loader that
    created the service. *)
Record LoaderInstance := mkInstance {
  inst_files : FilesMap;
  service : LanguageService;
  inst_config : ParsedConfig;
  inst_loader : WebPackLoader
}.

(** The module-level state: [loaderInstances], [currentLoader], and the
    calls made into webpack so far. *)
Record World := mkWorld {
  loaderInstances : gmap string LoaderInstance;
  currentLoader : option WebPackLoader;
  hostEvents : list HostEvent
}.

(** What a request hands to [loader.callback]. *)
Inductive Callback :=
| CallbackError (error_message : string)
| CallbackOk (contents : string) (sourceMap_of : option JsObject).

(** How a call of [loader] ends. *)
Inductive Outcome :=
| Threw
| Called (cb : Callback).

(** The session id of [getLoaderInstance]. *)
Definition instance_id (loader : WebPackLoader) : string :=
  options_context loader +:+ query loader.

(** [createService], up to the registration of the two plugins: the
    instance it leads to and the configuration errors it emits. *)
Definition createService (loader : WebPackLoader) (options : Options)
    (fs : FileSystem) : option (LoaderInstance * list HostEvent) :=
  match loadConfig loader options fs with
  | None => None
  | Some config =>
      Some (mkInstance ∅ (createLanguageService loader config) config loader,
            map (fun e => EmitError (resourcePath loader) (formatDiagnostic e))
                (config_errors config))
  end.

(** [getLoaderInstance]; [None] when it throws. *)
Definition getLoaderInstance (loader : WebPackLoader) (fs : FileSystem)
    (w : World) : option LoaderInstance * World :=
  let id := instance_id loader in
  match parseQuery (query loader) with
  | None => (None, w)
  | Some query_ =>
      match loaderInstances w !! id with
      | Some instance => (Some instance, w)
      | None =>
          match createService loader query_ fs with
          | None => (None, w)
          | Some (instance, emitted) =>
              (Some instance,
               mkWorld (<[id := instance]> (loaderInstances w))
                       (currentLoader w) (hostEvents w ++ emitted))
          end
      end
  end.

(** Lines 79-94 of [loader]: from the emit output to the callback. *)
Definition loader_callback (loader : WebPackLoader) (content : string)
    (output : EmitOutput) : Outcome :=
  let fileName := resourcePath loader in
  if emitSkipped output then
    Called (CallbackError (fileName +:+ ": File not found"))
  else
    match outputFiles output !! (if sourceMap loader then 1 else 0)%nat with
    | None => Threw
    | Some out =>
        let result := output_text out in
        if sourceMap loader then
          match outputFiles output !! 0%nat with
          | None => Threw
          | Some map_file =>
              match JSON_parse (output_text map_file) with
              | None => Threw
              | Some sourceMap =>
                  let sourceMap :=
                    set_prop "sources" (JArray [JString fileName]) sourceMap in
                  let sourceMap := set_prop "file" (JString fileName) sourceMap in
                  let sourceMap :=
                    set_prop "sourcesContent" (JArray [JString content]) sourceMap in
                  Called (CallbackOk result (Some sourceMap))
              end
          end
        else Called (CallbackOk result None)
    end.

(** Lines 62-73 of [loader] on the session's instance: [cacheable()] and
    the registry update. The result is what the host methods work on when
    the service is called. *)
Definition request_host (loader : WebPackLoader) (content : string)
    (instance : LoaderInstance) (evs : list HostEvent) : Host :=
  let fileName := resourcePath loader in
  mkHost (update_file fileName content (inst_files instance))
         (evs ++ [Cacheable fileName]).

(** Lines 62-77 of [loader]: the registry update, then [getEmitOutput]
    with [currentLoader] set. The result is the emit output ([None] when
    the service threw), the instance and the calls made into webpack. *)
Definition loader_emit (loader : WebPackLoader) (content : string)
    (fs : FileSystem) (instance : LoaderInstance) (evs : list HostEvent)
    : option EmitOutput * LoaderInstance * list HostEvent :=
  let fileName := resourcePath loader in
  let '(r, h') :=
    run_service fs (Some loader) (config_fileNames (inst_config instance))
      (getEmitOutput (service instance) fileName)
      (request_host loader content instance evs) in
  match r with
  | Some (output, service') =>
      (Some output,
       mkInstance (files h') service' (inst_config instance) (inst_loader instance),
       events h')
  | None =>
      (None,
       mkInstance (files h') (service instance) (inst_config instance)
                  (inst_loader instance),
       events h')
  end.

(** [loader], called by webpack with [this = loader]. *)
Definition loader (this : WebPackLoader) (content : string) (fs : FileSystem)
    (w : World) : Outcome * World :=
  match getLoaderInstance this fs w with
  | (None, w1) => (Threw, w1)
  | (Some instance, w1) =>
      let id := instance_id this in
      let '(r, instance', evs) :=
        loader_emit this content fs instance (hostEvents w1) in
      match r with
      | None =>
          (Threw, mkWorld (<[id := instance']> (loaderInstances w1)) (Some this) evs)
      | Some output =>
          (loader_callback this content output,
           mkWorld (<[id := instance']> (loaderInstances w1)) None evs)
      end
  end.

(** ** The plugins of a session *)

(** The watch-run plugin of the session stored under [id]; the flag tells
    whether [cb()] was reached. *)
Definition watch_run_plugin (id : string) (fs : FileSystem) (keys : list string)
    (w : World) : bool * World :=
  match loaderInstances w !! id with
  | None => (true, w)
  | Some instance =>
      let store files' :=
        mkWorld (<[id := mkInstance files' (service instance)
                           (inst_config instance) (inst_loader instance)]>
                   (loaderInstances w))
                (currentLoader w) (hostEvents w) in
      match watch_run fs keys (inst_files instance) with
      | WatchDone files' => (true, store files')
      | WatchThrew files' => (false, store files')
      end
  end.

(** An entry of [compilation.warnings] or [compilation.errors]. *)
Inductive CompilationEntry :=
| ForeignEntry (entry_message : string)
| DiagnosticEntry (e : DiagosticError).

Record Compilation := mkCompilation {
  warnings : list CompilationEntry;
  errors : list CompilationEntry
}.

(** The two [forEach] loops of the emit plugin. *)
Definition push_diagnostics (ctx : string) (semantic syntactic : list Diagnostic)
    (compilation : Compilation) : Compilation :=
  let warnings' :=
    warnings compilation
    ++ map (fun d => DiagnosticEntry (new_DiagosticError d ctx)) semantic in
  let errors' :=
    errors compilation
    ++ map (fun d => DiagnosticEntry (new_DiagosticError d ctx)) syntactic in
  mkCompilation warnings' errors'.

(** The emit plugin of the session stored under [id]; [None] when the
    service threw. *)
Definition emit_plugin (id : string) (fs : FileSystem) (compilation : Compilation)
    (w : World) : option Compilation * World :=
  match loaderInstances w !! id with
  | None => (Some compilation, w)
  | Some instance =>
      let '(r, h') :=
        run_service fs (currentLoader w) (config_fileNames (inst_config instance))
          (getProgramDiagnostics (service instance))
          (mkHost (inst_files instance) (hostEvents w)) in
      let store service' :=
        mkWorld (<[id := mkInstance (files h') service'
                           (inst_config instance) (inst_loader instance)]>
                   (loaderInstances w))
                (currentLoader w) (events h') in
      match r with
      | Some (semantic, syntactic, service') =>
          (Some (push_diagnostics (options_context (inst_loader instance))
                   semantic syntactic compilation),
           store service')
      | None => (None, store (service instance))
      end
  end.

(** ** Requests and plugin calls as operations on the module state *)

(** What the service returned in a compile request: [None] when the
    request threw before the service did. *)
Definition reported_output (this : WebPackLoader) (content : string)
    (fs : FileSystem) (w : World) : option EmitOutput :=
  match getLoaderInstance this fs w with
  | (None, _) => None
  | (Some instance, w1) =>
      (loader_emit this content fs instance (hostEvents w1)).1.1
  end.

(** What the program of a session reported to its emit plugin. *)
Definition reported_diagnostics (id : string) (fs : FileSystem) (w : World)
    : option (list Diagnostic * list Diagnostic) :=
  match loaderInstances w !! id with
  | None => None
  | Some instance =>
      match (run_service fs (currentLoader w)
               (config_fileNames (inst_config instance))
               (getProgramDiagnostics (service instance))
               (mkHost (inst_files instance) (hostEvents w))).1 with
      | Some (semantic, syntactic, _) => Some (semantic, syntactic)
      | None => None
      end
  end.

(** The ways webpack gets into the module: a compile request, and the two
    plugins of a session. *)
Inductive Operation :=
| OpCompile (this : WebPackLoader) (content : string) (fs : FileSystem)
| OpWatchRun (id : string) (fs : FileSystem) (keys : list string)
| OpEmit (id : string) (fs : FileSystem) (compilation : Compilation).

Inductive OperationResult :=
| CompileResult (outcome : Outcome)
| WatchRunResult (reached_cb : bool)
| EmitResult (compilation : option Compilation).

(** The session an operation works on. *)
Definition session_of (op : Operation) : string :=
  match op with
  | OpCompile this _ _ => instance_id this
  | OpWatchRun id _ _ => id
  | OpEmit id _ _ => id
  end.

Definition perform (op : Operation) (w : World) : OperationResult * World :=
  match op with
  | OpCompile this content fs =>
      let r := loader this content fs w in (CompileResult r.1, r.2)
  | OpWatchRun id fs keys =>
      let r := watch_run_plugin id fs keys w in (WatchRunResult r.1, r.2)
  | OpEmit id fs compilation =>
      let r := emit_plugin id fs compilation w in (EmitResult r.1, r.2)
  end.

End WithRuntime.

(** ** The configuration file *)

(** Node's [path.dirname] and [path.resolve] (of two strings) and
    [JSON.parse] at the type [any]; [None] when it throws. *)
Class NodeLib := {
  dirname : string -> string;
  resolve : string -> string -> string;
  JSON_parse_any : string -> option JsValue
}.

(** How [findConfigFile] ends. The loop runs until [dirname] stops moving;
    [OutOfFuel] says only that the model's step bound was too small. *)
Inductive Search :=
| Found (configFile : string)
| NotFound
| SearchThrew
| OutOfFuel.

(** The object a [for ... in] loop with [hasOwnProperty] sees in a value:
    the properties of an object, the indices of an array or of a string (one
    character each), nothing in [null], a number or a boolean. *)
Definition own_properties (v : JsValue) : JsObject :=
  match v with
  | JObject props => props
  | JArray items => imap (fun i item => (pretty i, item)) items
  | JString s =>
      imap (fun i c => (pretty i, JString (String c EmptyString)))
           (String.list_ascii_of_string s)
  | JNull | JBool _ | JNumber _ => []
  end.

(** [v[key]] for a key that is not an index or a built-in property:
    [None] is the [TypeError] of reading a property of [null]. *)
Definition read_property (key : string) (v : JsValue) : option (option JsValue) :=
  match v with
  | JNull => None
  | JObject props => Some (get_prop key props)
  | _ => Some None
  end.

(** One round of xtend's loop:
    [for (key in source) if (hasOwnProperty.call(source, key))
       target[key] = source[key]].
    Objects are their own properties, as everywhere in this file: the
    key [__proto__], whose assignment sets the prototype, is not modelled. *)
Definition assign_own (target : JsObject) (source : JsValue) : JsObject :=
  let props := own_properties source in
  foldl (fun t key =>
           match get_prop key props with
           | Some v => set_prop key v t
           | None => t
           end)
        target props.*1.

(** xtend's [extend(...sources)]: a fresh object with the own properties
    of each source in turn, [undefined] sources adding nothing. *)
Definition extend (sources : list (option JsValue)) : JsObject :=
  foldl (fun target source =>
           match source with
           | Some v => assign_own target v
           | None => target
           end)
        [] sources.

(** The value of a key among the own properties of an optional source. *)
Definition get_own (key : string) (source : option JsValue) : option JsValue :=
  match source with
  | Some v => get_prop key (own_properties v)
  | None => None
  end.

Section WithNodeLib.
Context `{NL : NodeLib}.

(** [loadConfigFile] *)
Definition loadConfigFile (fs : FileSystem) (fileName : string) : option JsValue :=
  match readFileSync fs fileName with
  | Some t => JSON_parse_any t
  | None => None
  end.

(** [config.files.map((file) => resolve(configDir, file))]; [resolve]
    throws on an argument that is not a string. *)
Fixpoint resolve_files (configDir : string) (items : list JsValue)
    : option (list JsValue) :=
  match items with
  | [] => Some []
  | JString file :: rest =>
      match resolve_files configDir rest with
      | Some rest' => Some (JString (resolve configDir file) :: rest')
      | None => None
      end
  | _ :: _ => None
  end.

(** The defaults of [readConfigFile]. *)
Definition default_compilerOptions : JsObject :=
  [("target", JString "es5"); ("module", JString "commonjs")].

(** [readConfigFile]; [configFile] is [None] for [undefined], and the empty
    string is as good as none. [None] as a result is a thrown exception. *)
Definition readConfigFile (fs : FileSystem) (configFile : option string)
    (loader : WebPackLoader) (additionalOptions : option JsValue)
    : option JsObject :=
  let config : JsObject := [("files", JArray []); ("compilerOptions", JObject [])] in
  let loaded : option JsObject :=
    match configFile with
    | None | Some "" => Some config
    | Some configFile =>
        match loadConfigFile fs configFile with
        | None => None
        | Some tsconfig =>
            let configDir := dirname configFile in
            let config := extend [Some (JObject config); Some tsconfig] in
            match read_property "files" tsconfig with
            | None => None
            | Some (Some (JArray _)) =>
                match get_prop "files" config with
                | Some (JArray files) =>
                    match resolve_files configDir files with
                    | Some files' => Some (set_prop "files" (JArray files') config)
                    | None => None
                    end
                | _ => None
                end
            | Some _ => Some config
            end
        end
    end in
  match loaded with
  | None => None
  | Some config =>
      let compilerOptions :=
        extend [Some (JObject default_compilerOptions);
                get_prop "compilerOptions" config;
                additionalOptions;
                Some (JObject [("sourceMap", JBool (sourceMap loader))])] in
      Some (set_prop "compilerOptions" (JObject compilerOptions) config)
  end.

(** The directory [n] steps of [dirname] above [dir]. *)
Fixpoint ancestor (n : nat) (dir : string) : string :=
  match n with
  | O => dir
  | S n' => ancestor n' (dirname dir)
  end.

(** The [do ... while] loop of [findConfigFile], entered with [dir]. *)
Fixpoint findConfigFile_loop (fuel : nat) (fs : FileSystem) (dir : string)
    : Search :=
  match fuel with
  | O => OutOfFuel
  | S fuel' =>
      let configFile := resolve dir "tsconfig.json" in
      if fileExists fs configFile then Found configFile
      else
        let parentDir := dirname dir in
        if String.eqb dir parentDir then NotFound
        else
          match statSync fs parentDir with
          | None => SearchThrew
          | Some st =>
              if isDirectory st then findConfigFile_loop fuel' fs parentDir
              else NotFound
          end
  end.

(** [findConfigFile] *)
Definition findConfigFile (fuel : nat) (fs : FileSystem) (path : string)
    : Search :=
  match statSync fs path with
  | None => SearchThrew
  | Some st =>
      findConfigFile_loop fuel fs (if isDirectory st then path else dirname path)
  end.

(** The [compilerOptions] value of the configuration file, when a file
    is named, loads and has one. *)
Definition file_compilerOptions (fs : FileSystem) (configFile : option string)
    : option JsValue :=
  match configFile with
  | None | Some "" => None
  | Some name =>
      match loadConfigFile fs name with
      | Some tsconfig => get_prop "compilerOptions" (own_properties tsconfig)
      | None => None
      end
  end.

End WithNodeLib.

(** ** Concrete collaborators, for the examples *)

(** A project directory [/p] with a build target and a declaration file. *)
Definition demo_fs : FileSystem :=
  mkFS
    (fun path =>
       if String.eqb path "/p" then Some (mkStats false true)
       else if String.eqb path "/p/a.ts" then Some (mkStats true false)
       else if String.eqb path "/p/lib.d.ts" then Some (mkStats true false)
       else None)
    (fun path =>
       if String.eqb path "/p/a.ts" then Some "let x=1"
       else if String.eqb path "/p/lib.d.ts" then Some "declare var y: number"
       else None).

(** The same directory after [/p/lib.d.ts] was edited. *)
Definition demo_fs_edited : FileSystem :=
  mkFS (statSync demo_fs)
    (fun path =>
       if String.eqb path "/p/lib.d.ts" then Some "declare var y: string"
       else readFileSync demo_fs path).

(** The same directory after [/p/lib.d.ts] was removed. *)
Definition demo_fs_removed : FileSystem :=
  mkFS
    (fun path => if String.eqb path "/p/lib.d.ts" then None else statSync demo_fs path)
    (fun path => if String.eqb path "/p/lib.d.ts" then None else readFileSync demo_fs path).

(** A registry that knows the build target and the declaration file. *)
Definition demo_files : FilesMap :=
  <["/p/a.ts" := mkFile 1 "let x=1"]>
    (<["/p/lib.d.ts" := mkFile 0 "declare var y: number"]> ∅).

Definition demo_host : Host := mkHost demo_files [].

(** [ts.flattenDiagnosticMessageText] the way the TypeScript library
    computes it: the texts of the chain, each one after the first on a new
    line and indented by its depth. *)
Fixpoint indentation (depth : nat) : string :=
  match depth with
  | O => ""
  | S d => "  " +:+ indentation d
  end.

Fixpoint flatten_chain (newLine : string) (depth : nat)
    (c : DiagnosticMessageChain) : string :=
  match c with
  | mkChain t next =>
      (match depth with
       | O => ""
       | S _ => newLine +:+ indentation depth
       end)
      +:+ t
      +:+ match next with
          | Some c' => flatten_chain newLine (S depth) c'
          | None => ""
          end
  end.

Definition demo_flatten (messageText : MessageText) (newLine : string) : string :=
  match messageText with
  | MessageString s => s
  | MessageChain c => flatten_chain newLine 0 c
  end.

Definition quoted (s : string) : string :=
  let q := String (Ascii.ascii_of_nat 34) EmptyString in q +:+ s +:+ q.

(** A source map as the compiler writes it, and the object it parses to. *)
Definition demo_map_text : string :=
  "{" +:+ quoted "version" +:+ ":3," +:+ quoted "file" +:+ ":" +:+ quoted "a.js"
      +:+ "," +:+ quoted "sources" +:+ ":[" +:+ quoted "a.ts" +:+ "]}".

Definition demo_map : JsObject :=
  [("version", JNumber 3); ("file", JString "a.js");
   ("sources", JArray [JString "a.ts"])].

(** A stand-in compiler. It asks the host for the version and the text of
    the target, throws when the host has no text for it, pulls in
    [/p/lib.d.ts], and emits the text unchanged, after the source map when
    source maps are on. Like the TypeScript service it emits no file for a
    declaration file; it skips emission for an empty text. Its state is the
    source-map flag it was created with. *)
Definition demo_getEmitOutput (sourceMaps : bool) (target : string)
    : Service (EmitOutput * bool) :=
  CallVersion target (fun _ =>
  CallSnapshot target (fun snapshot =>
    match snapshot with
    | None => Raise
    | Some t =>
        if isDefinition target then Return (mkEmitOutput [] false, sourceMaps)
        else if String.eqb t "" then Return (mkEmitOutput [] true, sourceMaps)
        else
          CallSnapshot "/p/lib.d.ts" (fun _ =>
            Return (mkEmitOutput
                      ((if sourceMaps
                        then [mkOutputFile (target +:+ ".js.map") demo_map_text]
                        else [])
                       ++ [mkOutputFile (target +:+ ".js") t])
                      false,
                    sourceMaps))
    end)).

(** A source file with lines of ten characters. *)
Definition demo_source_file : SourceFile :=
  mkSourceFile "/p/a.ts" (fun pos => mkLineAndCharacter (pos / 10) (pos mod 10)).

Definition demo_semantic : Diagnostic :=
  mkDiagnostic (Some demo_source_file) 24
    (MessageChain
       (mkChain "Type 'string' is not assignable to type 'Y'."
          (Some (mkChain "Property 'y' is missing." None)))).

Definition demo_syntactic : Diagnostic :=
  mkDiagnostic None 0 (MessageString "';' expected.").

Definition demo_runtime : Runtime := {|
  flattenDiagnosticMessageText := demo_flatten;
  JSON_parse := fun s => if String.eqb s demo_map_text then Some demo_map else None;
  relative := fun from to =>
    if String.prefix (from +:+ "/") to
    then String.substring (S (String.length from))
           (String.length to - S (String.length from)) to
    else to;
  urlToRequest := fun url => "./" +:+ url;
  parseQuery := fun _ => Some (mkOptions None None);
  LanguageService := bool;
  loadConfig := fun _ _ _ => Some (mkConfig [] []);
  createLanguageService := fun loader _ => sourceMap loader;
  getEmitOutput := demo_getEmitOutput;
  getProgramDiagnostics := fun s => Return ([demo_semantic], [demo_syntactic], s)
|}.

(** Requests for the build target, with and without source maps, and for
    the declaration file. *)
Definition demo_loader : WebPackLoader :=
  mkLoader "?sourceMap" "/p/a.ts" "/p" true "/p".

Definition demo_loader_plain : WebPackLoader :=
  mkLoader "" "/p/a.ts" "/p" false "/p".

Definition demo_loader_dts : WebPackLoader :=
  mkLoader "" "/p/lib.d.ts" "/p" false "/p".

Definition empty_world : World (RT := demo_runtime) := mkWorld ∅ None [].

(** The module state after a first request for [/p/a.ts] without source
    maps: one session, under the id [/p]. *)
Definition demo_world : World (RT := demo_runtime) :=
  (loader demo_loader_plain "let x=1" demo_fs empty_world).2.

(** A project with a configuration file one directory above the source. *)
Definition demo_tsconfig_text : string :=
  "{" +:+ quoted "compilerOptions" +:+ ":{" +:+ quoted "target" +:+ ":"
      +:+ quoted "es6" +:+ "}," +:+ quoted "files" +:+ ":["
      +:+ quoted "src/a.ts" +:+ "]}".

Definition demo_tsconfig : JsValue :=
  JObject [("compilerOptions", JObject [("target", JString "es6")]);
           ("files", JArray [JString "src/a.ts"])].

Definition demo_fs_config : FileSystem :=
  mkFS
    (fun path =>
       if String.eqb path "/" then Some (mkStats false true)
       else if String.eqb path "/p" then Some (mkStats false true)
       else if String.eqb path "/p/src" then Some (mkStats false true)
       else if String.eqb path "/p/src/a.ts" then Some (mkStats true false)
       else if String.eqb path "/p/tsconfig.json" then Some (mkStats true false)
       else None)
    (fun path =>
       if String.eqb path "/p/src/a.ts" then Some "let x=1"
       else if String.eqb path "/p/tsconfig.json" then Some demo_tsconfig_text
       else if String.eqb path "/p/null.json" then Some "null"
       else None).

(** Stand-ins for [path.dirname] and [path.resolve] on the paths of the
    examples, and for [JSON.parse] on their texts. *)
Definition demo_node : NodeLib := {|
  dirname := fun path =>
    if String.eqb path "/p/src/a.ts" then "/p/src"
    else if String.eqb path "/p/src" then "/p"
    else if String.eqb path "/p/tsconfig.json" then "/p"
    else if String.eqb path "/p/null.json" then "/p"
    else if String.eqb path "/p" then "/"
    else path;
  resolve := fun from to =>
    if String.prefix "/" to then to
    else if String.eqb from "/" then "/" +:+ to
    else from +:+ "/" +:+ to;
  JSON_parse_any := fun s =>
    if String.eqb s demo_tsconfig_text then Some demo_tsconfig
    else if String.eqb s "null" then Some JNull
    else None
|}.

(** ** Sequences of operations and flattened messages *)

(** The texts of a message chain, outermost first. *)
Fixpoint chain_texts (c : DiagnosticMessageChain) : list string :=
  match c with
  | mkChain t next =>
      t :: match next with
           | Some c' => chain_texts c'
           | None => []
           end
  end.

(** The flattening as the specification words it: the texts of a chain
    joined by newlines, a plain message as it is. *)
Definition joined_with_newlines (messageText : MessageText) : string :=
  match messageText with
  | MessageString s => s
  | MessageChain c =>
      match chain_texts c with
      | [] => ""
      | t :: rest =>
          t +:+ foldr String.append ""
                  (map (fun t' => String (Ascii.ascii_of_nat 10) t') rest)
      end
  end.

(** Operations one after the other. *)
Definition perform_all `{RT : Runtime} (ops : list Operation) (w : World)
    : World :=
  foldl (fun w' op => (perform op w').2) w ops.

(** The version a session holds for a path, if it holds a record. *)
Definition stored_version `{RT : Runtime} (id path : string) (w : World)
    : option Z :=
  match loaderInstances w !! id with
  | Some instance => version <$> inst_files instance !! path
  | None => None
  end.

(** The session holds a record for the path after each of the operations. *)
Fixpoint stays_stored `{RT : Runtime} (id path : string) (ops : list Operation)
    (w : World) : Prop :=
  match ops with
  | [] => True
  | op :: rest =>
      is_Some (stored_version id path (perform op w).2)
      /\ stays_stored id path rest (perform op w).2
  end.

(** [demo_world] after [/p/lib.d.ts] was edited twice under a watch. *)
Definition demo_world_refreshed : World (RT := demo_runtime) :=
  perform_all [OpWatchRun "/p" demo_fs_edited ["/p/lib.d.ts"];
               OpWatchRun "/p" demo_fs_edited ["/p/lib.d.ts"]] demo_world.

(** ** Predicates of the proofs *)

(** What a completed run did to each path: nothing, or, for a registered
    declaration file among the keys, a refresh from disk. *)
Definition refreshed (fs : FileSystem) (keys : list string)
    (before after : FilesMap) (path : string) : Prop :=
  match before !! path with
  | None => after !! path = None
  | Some f =>
      exists f', after !! path = Some f'
        /\ ((path ∈ keys /\ isDefinition path = true
             /\ readFileSync fs path = Some (text f')
             /\ version f < version f')
            \/ ((path ∉ keys \/ isDefinition path = false) /\ f' = f))
  end.

(** Within one call the file system is fixed, so a snapshot request either
    keeps a record or deletes it for good. *)
Definition kept_or_gone (fs : FileSystem) (path : string) (f : FileRecord)
    (h : Host) : Prop :=
  files h !! path = Some f
  \/ (files h !! path = None /\ fileExists fs path = false).

(** A record that was read from disk by the on-demand loader. *)
Definition loaded_from_disk (fs : FileSystem) (path : string) (f : FileRecord)
    : Prop :=
  fileExists fs path = true
  /\ readFileSync fs path = Some (text f)
  /\ version f = 0.

(** The registry a watch-run leaves behind, however it ends. *)
Definition watch_files (r : WatchResult) : FilesMap :=
  match r with
  | WatchDone files' => files'
  | WatchThrew files' => files'
  end.

(** * Properties *)

(** ** The registry update *)

Lemma update_file_lookup (files : FilesMap) (fileName content : string) :
  update_file fileName content files !! fileName
  = Some (mkFile (match files !! fileName with
                  | Some f => version f
                  | None => 0
                  end + 1) content).
Proof.
  unfold update_file, bump_version, set_text, ensure_file.
  rewrite !lookup_alter_eq.
  destruct (files !! fileName) as [f|] eqn:E.
  - by rewrite E.
  - by rewrite lookup_insert_eq.
Qed.

Lemma update_file_other (files : FilesMap) (fileName content other : string) :
  other ≠ fileName ->
  update_file fileName content files !! other = files !! other.
Proof.
  intros Hne. unfold update_file, bump_version, set_text, ensure_file.
  rewrite !lookup_alter_ne by done.
  destruct (files !! fileName); [done|].
  by rewrite lookup_insert_ne.
Qed.

(** Repeated updates of one path, whatever the texts: the version counts
    them. *)
Lemma update_file_repeated (contents : list string) (files : FilesMap)
    (fileName : string) :
  contents <> [] ->
  version <$> (foldl (fun m c => update_file fileName c m) files contents
               !! fileName)
  = Some (default 0 (version <$> files !! fileName)
          + Z.of_nat (length contents)).
Proof.
  revert files. induction contents as [|c cs IH]; intros files Hne; [done|].
  simpl foldl. destruct cs as [|c' cs].
  - simpl. rewrite update_file_lookup.
    destruct (files !! fileName); simpl; f_equal; lia.
  - rewrite IH by done. rewrite update_file_lookup.
    destruct (files !! fileName); simpl length; simpl; f_equal; lia.
Qed.

Lemma update_file_versions (files : FilesMap) (fileName content path : string)
    (f : FileRecord) :
  files !! path = Some f ->
  exists f', update_file fileName content files !! path = Some f'
             /\ version f <= version f'.
Proof.
  intros Hf. destruct (decide (path = fileName)) as [->|Hne].
  - eexists. rewrite update_file_lookup, Hf. split; [done|]. simpl. lia.
  - exists f. rewrite update_file_other by done. split; [done|lia].
Qed.

(** ** The on-demand loader *)

Lemma getScriptSnapshot_absent (fs : FileSystem) (cur : option WebPackLoader)
    (fileName : string) (h : Host) :
  fileExists fs fileName = false ->
  getScriptSnapshot fs cur fileName h
  = (None, mkHost (delete fileName (files h)) (events h)).
Proof. intros H. unfold getScriptSnapshot. by rewrite H. Qed.

Lemma getScriptSnapshot_registered (fs : FileSystem) (cur : option WebPackLoader)
    (fileName : string) (h : Host) (f : FileRecord) :
  fileExists fs fileName = true ->
  files h !! fileName = Some f ->
  (getScriptSnapshot fs cur fileName h).1 = Some (text f)
  /\ files (getScriptSnapshot fs cur fileName h).2 = files h.
Proof.
  intros He Hf. unfold getScriptSnapshot. rewrite He, Hf. by simpl.
Qed.

Lemma getScriptSnapshot_load (fs : FileSystem) (cur : option WebPackLoader)
    (fileName : string) (h : Host) (t : string) :
  fileExists fs fileName = true ->
  files h !! fileName = None ->
  readFileSync fs fileName = Some t ->
  (getScriptSnapshot fs cur fileName h).1 = Some t
  /\ files (getScriptSnapshot fs cur fileName h).2
     = <[fileName := mkFile 0 t]> (files h).
Proof.
  intros He Hf Hr. unfold getScriptSnapshot. rewrite He, Hf, Hr. by simpl.
Qed.

(** C2, as the code has it. The existence check comes first. For a path
    with a record in the registry: when the path is a regular file on disk
    the snapshot is the record's text, whatever the file holds now, and the
    registry is left as it is; when it is not, the result is [undefined]
    and the record is deleted. *)
Theorem registered_snapshot (fs : FileSystem) (cur : option WebPackLoader)
    (fileName : string) (h : Host) (f : FileRecord) :
  files h !! fileName = Some f ->
  (fileExists fs fileName = true ->
     (getScriptSnapshot fs cur fileName h).1 = Some (text f)
     /\ files (getScriptSnapshot fs cur fileName h).2 = files h)
  /\ (fileExists fs fileName = false ->
        (getScriptSnapshot fs cur fileName h).1 = None
        /\ files (getScriptSnapshot fs cur fileName h).2
           = delete fileName (files h)).
Proof.
  intros Hf. split; intros He.
  - by apply getScriptSnapshot_registered.
  - by rewrite getScriptSnapshot_absent.
Qed.

Lemma registered_snapshot_witness :
  (getScriptSnapshot demo_fs_edited None "/p/lib.d.ts" demo_host).1
  = Some "declare var y: number"
  /\ (getScriptSnapshot demo_fs_removed None "/p/lib.d.ts" demo_host).1 = None.
Proof.
  split.
  - apply (proj1 (registered_snapshot demo_fs_edited None "/p/lib.d.ts" demo_host
                    (mkFile 0 "declare var y: number") eq_refl) eq_refl).
  - apply (proj2 (registered_snapshot demo_fs_removed None "/p/lib.d.ts" demo_host
                    (mkFile 0 "declare var y: number") eq_refl) eq_refl).
Defined.

(** C2 as stated does not hold: a registered path that is no longer on
    disk has no snapshot. *)
Lemma registered_snapshot_needs_disk :
  ~ (forall (fs : FileSystem) (cur : option WebPackLoader) (fileName : string)
            (h : Host) (f : FileRecord),
        files h !! fileName = Some f ->
        (getScriptSnapshot fs cur fileName h).1 = Some (text f)).
Proof.
  intros H.
  specialize (H demo_fs_removed None "/p/lib.d.ts" demo_host
                (mkFile 0 "declare var y: number") eq_refl).
  vm_compute in H. discriminate H.
Qed.

(** C4. A path that is not a regular file on disk has no snapshot: the
    result is [undefined], not an empty text, and afterwards the registry
    holds no record under the path (a record stored there is deleted; for a
    path without a record the registry is as before). The other records
    stay. *)
Theorem absent_file_reported (fs : FileSystem) (cur : option WebPackLoader)
    (fileName : string) (h : Host) :
  fileExists fs fileName = false ->
  let r := getScriptSnapshot fs cur fileName h in
  r.1 = None
  /\ r.1 <> Some ""
  /\ files r.2 !! fileName = None
  /\ (files h !! fileName = None -> files r.2 = files h)
  /\ (forall other, other ≠ fileName -> files r.2 !! other = files h !! other).
Proof.
  intros He r. subst r. rewrite getScriptSnapshot_absent by done. simpl.
  repeat split.
  - done.
  - apply lookup_delete_eq.
  - intros Hn. by apply delete_id.
  - intros other Hne. by apply lookup_delete_ne.
Qed.

Lemma absent_file_reported_witness :
  (getScriptSnapshot demo_fs (None : option WebPackLoader) "/p/b.d.ts" demo_host).1 = None
  /\ files (getScriptSnapshot demo_fs (None : option WebPackLoader) "/p/b.d.ts" demo_host).2
     !! "/p/b.d.ts" = None.
Proof.
  pose proof (absent_file_reported demo_fs None "/p/b.d.ts" demo_host eq_refl) as H.
  simpl in H. destruct H as (H1 & _ & H3 & _). split; [exact H1 | exact H3].
Defined.

(** C5. For a path that is a readable regular file on disk and has no
    record yet, the first call reads the file and registers it at version
    0; a second call, made while the path is still on disk, answers from
    the registry with the same text (whatever the file holds by then) and
    changes nothing: the registry has gained exactly one record. *)
Theorem lazy_load_idempotent (fs fs' : FileSystem) (cur cur' : option WebPackLoader)
    (fileName : string) (h : Host) (t : string) :
  files h !! fileName = None ->
  fileExists fs fileName = true ->
  readFileSync fs fileName = Some t ->
  fileExists fs' fileName = true ->
  let r1 := getScriptSnapshot fs cur fileName h in
  let r2 := getScriptSnapshot fs' cur' fileName r1.2 in
  r1.1 = Some t
  /\ r2.1 = Some t
  /\ files r1.2 = <[fileName := mkFile 0 t]> (files h)
  /\ files r2.2 = files r1.2
  /\ files r2.2 !! fileName = Some (mkFile 0 t)
  /\ size (files r2.2) = S (size (files h)).
Proof.
  intros Hn He Hr He' r1 r2.
  destruct (getScriptSnapshot_load fs cur fileName h t He Hn Hr) as [H1 H2].
  fold r1 in H1, H2.
  assert (Hreg : files r1.2 !! fileName = Some (mkFile 0 t)).
  { rewrite H2. apply lookup_insert_eq. }
  destruct (getScriptSnapshot_registered fs' cur' fileName r1.2 _ He' Hreg)
    as [H3 H4].
  fold r2 in H3, H4.
  repeat split; try done.
  - by rewrite H4.
  - rewrite H4, H2. by apply map_size_insert_None.
Qed.

Lemma lazy_load_idempotent_witness :
  let h := mkHost (<["/p/a.ts" := mkFile 1 "let x=1"]> ∅) [] in
  let r1 := getScriptSnapshot demo_fs None "/p/lib.d.ts" h in
  let r2 := getScriptSnapshot demo_fs_edited None "/p/lib.d.ts" r1.2 in
  r1.1 = Some "declare var y: number"
  /\ r2.1 = Some "declare var y: number"
  /\ files r2.2 !! "/p/lib.d.ts" = Some (mkFile 0 "declare var y: number")
  /\ size (files r2.2) = 2%nat.
Proof.
  intros h r1 r2.
  pose proof (lazy_load_idempotent demo_fs demo_fs_edited None None "/p/lib.d.ts"
                h "declare var y: number" eq_refl eq_refl eq_refl eq_refl) as H.
  destruct H as (H1 & H2 & _ & _ & H5 & H6).
  split; [exact H1 | split; [exact H2 | split; [exact H5 | exact H6]]].
Defined.

(** ** The watch-run plugin *)

(** One refresh of a registered path. *)
Lemma refresh_lookup (files : FilesMap) (fileName t : string) (f : FileRecord) :
  files !! fileName = Some f ->
  bump_version fileName (set_text fileName t files) !! fileName
  = Some (mkFile (version f + 1) t).
Proof.
  intros Hf. unfold bump_version, set_text. by rewrite !lookup_alter_eq, Hf.
Qed.

Lemma refresh_other (files : FilesMap) (fileName t other : string) :
  other ≠ fileName ->
  bump_version fileName (set_text fileName t files) !! other = files !! other.
Proof.
  intros Hne. unfold bump_version, set_text. by rewrite !lookup_alter_ne.
Qed.

Lemma watch_run_refreshed (fs : FileSystem) (keys : list string) :
  forall (files files' : FilesMap),
    watch_run fs keys files = WatchDone files' ->
    forall path, refreshed fs keys files files' path.
Proof.
  induction keys as [|k rest IH]; intros files files' Hrun path; simpl in Hrun.
  - inversion Hrun; subst. unfold refreshed.
    destruct (files' !! path) as [f|]; [|done].
    exists f. split; [done|]. right. split; [|done]. left. apply not_elem_of_nil.
  - destruct (files !! k) as [file|] eqn:Hk;
      [destruct (isDefinition k) eqn:Hd;
         [destruct (readFileSync fs k) as [t|] eqn:Hr; [|discriminate]|]|].
    + (* the key is refreshed *)
      specialize (IH _ _ Hrun path). unfold refreshed in *.
      destruct (decide (path = k)) as [->|Hne].
      * rewrite (refresh_lookup _ _ _ _ Hk) in IH. rewrite Hk.
        destruct IH as (f' & Hf' & [(_ & _ & Ht & Hv) | (_ & Heq)]);
          exists f'; (split; [done|]); left; subst; simpl in *;
          (split; [apply elem_of_cons; by left|]);
          (split; [done|]); (split; [done|lia]).
      * rewrite (refresh_other _ _ _ _ Hne) in IH.
        destruct (files !! path) as [f|]; [|done].
        destruct IH as (f' & Hf' & [(Hin & Hrest) | ([Hnin | Hnd] & Heq)]);
          exists f'; (split; [done|]).
        -- left. split; [apply elem_of_cons; by right | done].
        -- right. split; [|done]. left. rewrite elem_of_cons. tauto.
        -- right. split; [|done]. by right.
    + (* a registered path that is not a declaration file *)
      specialize (IH _ _ Hrun path). unfold refreshed in *.
      destruct (files !! path) as [f|] eqn:Hp; [|done].
      destruct IH as (f' & Hf' & [(Hin & Hrest) | ([Hnin | Hnd] & Heq)]);
        exists f'; (split; [done|]).
      * left. split; [apply elem_of_cons; by right | done].
      * right. split; [|done].
        destruct (decide (path = k)) as [->|Hne]; [by right|].
        left. rewrite elem_of_cons. tauto.
      * right. split; [|done]. by right.
    + (* a path without a record *)
      specialize (IH _ _ Hrun path). unfold refreshed in *.
      destruct (files !! path) as [f|] eqn:Hp; [|done].
      destruct IH as (f' & Hf' & [(Hin & Hrest) | ([Hnin | Hnd] & Heq)]);
        exists f'; (split; [done|]).
      * left. split; [apply elem_of_cons; by right | done].
      * right. split; [|done].
        left. rewrite elem_of_cons. intros [->|?]; [congruence | done].
      * right. split; [|done]. by right.
Qed.

(** The run reaches [cb()] when every read it makes succeeds. *)
Lemma watch_run_completes (fs : FileSystem) (keys : list string) :
  forall files : FilesMap,
    (forall k, k ∈ keys -> is_Some (files !! k) -> isDefinition k = true ->
               is_Some (readFileSync fs k)) ->
    exists files', watch_run fs keys files = WatchDone files'.
Proof.
  induction keys as [|k rest IH]; intros files Hread; simpl.
  - by eexists.
  - assert (Hrest : forall files0 : FilesMap,
               (forall p, is_Some (files0 !! p) -> is_Some (files !! p)) ->
               exists files', watch_run fs rest files0 = WatchDone files').
    { intros files0 Hdom. apply IH. intros p Hin Hp Hd.
      apply Hread; [apply elem_of_cons; by right | by apply Hdom | done]. }
    destruct (files !! k) as [file|] eqn:Hk; [|by apply Hrest].
    destruct (isDefinition k) eqn:Hd; [|by apply Hrest].
    destruct (Hread k) as [t Ht]; [apply elem_of_cons; by left | by eexists | done |].
    rewrite Ht. apply Hrest. intros p.
    destruct (decide (p = k)) as [->|Hne]; [by rewrite Hk|].
    by rewrite refresh_other.
Qed.

(** C3. The watch-run handler, given the changed paths, reaches [cb()]
    (after which webpack goes on to the compile requests) whenever each
    registered declaration file among them can be read. When it has
    reached [cb()], every changed path that has a record and ends in
    [.d.ts] holds the text read from disk and a strictly greater version,
    which is what [getScriptVersion] then reports; every other path is as
    before. The session keeps that registry: the next compile request of
    the session gets it from [getLoaderInstance], and its own update
    changes the record of its target only. *)
Theorem watch_run_refreshes `{RT : Runtime} (fs : FileSystem)
    (keys : list string) (registry : FilesMap) :
  ((forall k, k ∈ keys -> is_Some (registry !! k) -> isDefinition k = true ->
              is_Some (readFileSync fs k)) ->
   exists files', watch_run fs keys registry = WatchDone files')
  /\ (forall files', watch_run fs keys registry = WatchDone files' ->
       (forall path f, path ∈ keys -> registry !! path = Some f ->
                       isDefinition path = true ->
          exists f', files' !! path = Some f'
            /\ readFileSync fs path = Some (text f')
            /\ version f < version f'
            /\ forall evs, getScriptVersion path (mkHost files' evs)
                           = Some (pretty (version f')))
       /\ (forall path,
             ~ (path ∈ keys /\ is_Some (registry !! path) /\ isDefinition path = true) ->
             files' !! path = registry !! path))
  /\ (forall (id : string) (w w' : World) (instance : LoaderInstance),
        loaderInstances w !! id = Some instance ->
        inst_files instance = registry ->
        watch_run_plugin id fs keys w = (true, w') ->
        exists files' instance',
          watch_run fs keys registry = WatchDone files'
          /\ loaderInstances w' !! id = Some instance'
          /\ inst_files instance' = files'
          /\ forall (this : WebPackLoader) (fs2 : FileSystem) (content : string)
                    (evs : list HostEvent),
               instance_id this = id ->
               is_Some (parseQuery (query this)) ->
               (getLoaderInstance this fs2 w').1 = Some instance'
               /\ forall path, path <> resourcePath this ->
                     files (request_host this content instance' evs) !! path
                     = files' !! path).
Proof.
  split; [apply watch_run_completes|]. split.
  - intros files' Hrun. split.
    + intros path f Hin Hf Hd.
      pose proof (watch_run_refreshed fs keys registry files' Hrun path) as H.
      unfold refreshed in H. rewrite Hf in H.
      destruct H as (f' & Hf' & [(_ & _ & Ht & Hv) | ([Hnin | Hnd] & _)]);
        [|done|congruence].
      exists f'. repeat split; try done.
      intros evs. unfold getScriptVersion. simpl. by rewrite Hf'.
    + intros path Hnot.
      pose proof (watch_run_refreshed fs keys registry files' Hrun path) as H.
      unfold refreshed in H. destruct (registry !! path) as [f|] eqn:Hf; [|done].
      destruct H as (f' & Hf' & [(Hin & Hd & _) | (_ & Heq)]); [|by subst].
      exfalso. apply Hnot. by eauto.
  - intros id w w' instance Hi <- Hrun. unfold watch_run_plugin in Hrun.
    rewrite Hi in Hrun.
    destruct (watch_run fs keys (inst_files instance)) as [files'|files'];
      inversion Hrun; subst w'.
    eexists files', _. split; [done|]. simpl. rewrite lookup_insert_eq.
    split; [done|]. split; [done|].
    intros this fs2 content evs Hid [options Hq]. split.
    + unfold getLoaderInstance. simpl. by rewrite Hq, Hid, lookup_insert_eq.
    + intros path Hne. unfold request_host. simpl. by apply update_file_other.
Qed.

Lemma watch_run_refreshes_witness :
  (exists files',
     watch_run demo_fs_edited ["/p/a.ts"; "/p/lib.d.ts"] demo_files = WatchDone files'
     /\ (exists f', files' !! "/p/lib.d.ts" = Some f'
                    /\ Some "declare var y: string" = Some (text f')
                    /\ 0 < version f')
     /\ files' !! "/p/a.ts" = Some (mkFile 1 "let x=1"))
  /\ exists w' instance',
       watch_run_plugin (RT := demo_runtime) "/p" demo_fs_edited
         ["/p/a.ts"; "/p/lib.d.ts"] demo_world = (true, w')
       /\ (getLoaderInstance demo_loader_plain demo_fs_edited w').1 = Some instance'
       /\ files (request_host demo_loader_plain "let x=2" instance' [])
            !! "/p/lib.d.ts"
          = Some (mkFile 1 "declare var y: string").
Proof.
  split.
  - destruct (watch_run_refreshes (RT := demo_runtime) demo_fs_edited
                ["/p/a.ts"; "/p/lib.d.ts"] demo_files)
      as (Hdone & Hafter & _).
    destruct Hdone as [files' Hrun].
    { intros k Hin Hreg Hd. simpl.
      destruct (String.eqb k "/p/lib.d.ts") eqn:E; [by eexists|].
      apply elem_of_cons in Hin as [->|Hin]; [discriminate Hd|].
      apply elem_of_cons in Hin as [->|Hin]; [discriminate E|].
      by apply elem_of_nil in Hin. }
    exists files'. split; [exact Hrun|].
    destruct (Hafter files' Hrun) as [Hfresh Hsame]. split.
    + destruct (Hfresh "/p/lib.d.ts" (mkFile 0 "declare var y: number"))
        as (f' & Hf' & Ht & Hv & _).
      * apply elem_of_cons. right. apply elem_of_cons. by left.
      * reflexivity.
      * reflexivity.
      * exists f'. split; [exact Hf' | split; [exact Ht | exact Hv]].
    + rewrite (Hsame "/p/a.ts"); [reflexivity|].
      intros (_ & _ & Hd). discriminate Hd.
  - assert (exists instance,
               loaderInstances demo_world !! "/p" = Some instance
               /\ inst_files instance = demo_files)
      as (instance & Hi & Hfiles) by (eexists; split; reflexivity).
    assert (exists w',
               watch_run_plugin (RT := demo_runtime) "/p" demo_fs_edited
                 ["/p/a.ts"; "/p/lib.d.ts"] demo_world = (true, w'))
      as [w' Hrun] by (eexists; reflexivity).
    destruct (watch_run_refreshes (RT := demo_runtime) demo_fs_edited
                ["/p/a.ts"; "/p/lib.d.ts"] demo_files)
      as (_ & _ & Hplugin).
    destruct (Hplugin "/p" demo_world w' instance Hi Hfiles Hrun)
      as (files' & instance' & Hdone & _ & _ & Hnext).
    destruct (Hnext demo_loader_plain demo_fs_edited "let x=2" [] eq_refl
                (ex_intro _ (mkOptions None None) eq_refl))
      as [Hget Hother].
    exists w', instance'. split; [exact Hrun|]. split; [exact Hget|].
    rewrite Hother by discriminate.
    vm_compute in Hdone. inversion Hdone; subst files'. reflexivity.
Defined.

(** ** Versions of the records that stay *)

Lemma getScriptSnapshot_keeps (fs : FileSystem) (cur : option WebPackLoader)
    (fileName path : string) (f : FileRecord) (h : Host) :
  kept_or_gone fs path f h ->
  kept_or_gone fs path f (getScriptSnapshot fs cur fileName h).2.
Proof.
  unfold kept_or_gone, getScriptSnapshot. intros Hk.
  destruct (decide (fileName = path)) as [->|Hne].
  - destruct (fileExists fs path) eqn:He.
    + destruct Hk as [Hk | [_ Hk]]; [|discriminate]. rewrite Hk. by left.
    + simpl. right. split; [apply lookup_delete_eq | done].
  - destruct (fileExists fs fileName) eqn:He.
    + destruct (files h !! fileName) as [g|]; simpl; [done|].
      destruct (readFileSync fs fileName); simpl; [|done].
      by rewrite lookup_insert_ne.
    + simpl. by rewrite lookup_delete_ne.
Qed.

Lemma run_service_keeps {R : Type} (fs : FileSystem) (cur : option WebPackLoader)
    (fileNames : list string) (path : string) (f : FileRecord) (s : Service R) :
  forall h, kept_or_gone fs path f h ->
            kept_or_gone fs path f (run_service fs cur fileNames s h).2.
Proof.
  induction s as [r | | k IH | q k IH | q k IH]; intros h Hk; simpl; try done.
  - by apply IH.
  - by apply IH.
  - pose proof (getScriptSnapshot_keeps fs cur q path f h Hk) as Hk'.
    destruct (getScriptSnapshot fs cur q h) as [snapshot h']. by apply IH.
Qed.

Lemma watch_run_versions (fs : FileSystem) (keys : list string) :
  forall (files files' : FilesMap),
    (watch_run fs keys files = WatchDone files'
     \/ watch_run fs keys files = WatchThrew files') ->
    forall path f, files !! path = Some f ->
      exists f', files' !! path = Some f' /\ version f <= version f'.
Proof.
  induction keys as [|k rest IH]; intros files files' Hrun path f Hf;
    simpl in Hrun.
  - destruct Hrun as [Hrun | Hrun]; inversion Hrun; subst.
    exists f. split; [done | lia].
  - destruct (files !! k) as [file|] eqn:Hk; [|by eapply IH].
    destruct (isDefinition k); [|by eapply IH].
    destruct (readFileSync fs k) as [t|].
    + destruct (decide (path = k)) as [->|Hne].
      * destruct (IH _ _ Hrun k _ (refresh_lookup _ _ t _ Hk)) as (f' & Hf' & Hv).
        exists f'. split; [done|]. simpl in Hv.
        assert (file = f) by congruence. subst. lia.
      * eapply IH; [exact Hrun|]. by rewrite refresh_other.
    + destruct Hrun as [Hrun | Hrun]; inversion Hrun; subst.
      exists f. split; [done | lia].
Qed.

(** ** The compile request *)

Lemma get_set_prop (key key' : string) (v : JsValue) (obj : JsObject) :
  get_prop key (set_prop key' v obj)
  = if String.eqb key key' then Some v else get_prop key obj.
Proof.
  induction obj as [|[k x] rest IH]; simpl.
  - by destruct (String.eqb key key').
  - destruct (String.eqb key' k) eqn:E1; simpl.
    + apply String.eqb_eq in E1; subst k. by destruct (String.eqb key key').
    + rewrite IH. destruct (String.eqb key k) eqn:E2; [|done].
      apply String.eqb_eq in E2; subst k.
      destruct (String.eqb key key') eqn:E3; [|done].
      apply String.eqb_eq in E3; subst key'.
      by rewrite String.eqb_refl in E1.
Qed.

(** The request ends the way the service's answer decides. *)
Lemma loader_outcome `{RT : Runtime} (this : WebPackLoader) (content : string)
    (fs : FileSystem) (w : World) :
  (loader this content fs w).1
  = match reported_output this content fs w with
    | None => Threw
    | Some output => loader_callback this content output
    end.
Proof.
  unfold loader, reported_output.
  destruct (getLoaderInstance this fs w) as [[instance|] w1]; [|done].
  destruct (loader_emit this content fs instance (hostEvents w1))
    as [[[output|] instance'] evs]; done.
Qed.

Lemma loader_callback_skipped `{RT : Runtime} (this : WebPackLoader)
    (content : string) (output : EmitOutput) :
  emitSkipped output = true ->
  loader_callback this content output
  = Called (CallbackError (resourcePath this +:+ ": File not found")).
Proof. intros H. unfold loader_callback. by rewrite H. Qed.

(** The source map handed to the callback, from the parsed one. *)
Lemma loader_callback_emitted `{RT : Runtime} (this : WebPackLoader)
    (content : string) (output : EmitOutput) (contents : string)
    (sm : option JsObject) :
  loader_callback this content output = Called (CallbackOk contents sm) ->
  emitSkipped output = false
  /\ (exists out,
        outputFiles output !! (if sourceMap this then 1 else 0)%nat = Some out
        /\ contents = output_text out)
  /\ (if sourceMap this
      then exists map_file parsed,
             outputFiles output !! 0%nat = Some map_file
             /\ JSON_parse (output_text map_file) = Some parsed
             /\ sm = Some (set_prop "sourcesContent" (JArray [JString content])
                             (set_prop "file" (JString (resourcePath this))
                                (set_prop "sources"
                                   (JArray [JString (resourcePath this)]) parsed)))
      else sm = None).
Proof.
  unfold loader_callback.
  destruct (emitSkipped output); [discriminate|].
  destruct (outputFiles output !! (if sourceMap this then 1 else 0)%nat)
    as [out|]; [|discriminate].
  destruct (sourceMap this).
  - destruct (outputFiles output !! 0%nat) as [map_file|]; [|discriminate].
    destruct (JSON_parse (output_text map_file)) as [parsed|] eqn:Hp;
      [|discriminate].
    intros H. inversion H; subst. split; [done|]. split; [by eexists|].
    by exists map_file, parsed.
  - intros H. inversion H; subst. split; [done|]. split; [by eexists|done].
Qed.

(** When the service reports emission as skipped, the callback gets one
    error, [<path>: File not found], and no output. *)
Lemma loader_reports_skipped `{RT : Runtime} (this : WebPackLoader)
    (content : string) (fs : FileSystem) (w : World) (output : EmitOutput) :
  reported_output this content fs w = Some output ->
  emitSkipped output = true ->
  (loader this content fs w).1
  = Called (CallbackError (resourcePath this +:+ ": File not found")).
Proof.
  intros Hout Hs. rewrite loader_outcome, Hout.
  by apply loader_callback_skipped.
Qed.

(** C6, at a request the code fails on. A compile request without source
    maps for the declaration file [/p/lib.d.ts], in a fresh module state:
    the service reports emission as not skipped and emits no file, as the
    TypeScript service does for a declaration file. The request then
    throws where it reads the text of the first output file, and no
    callback is called, neither with the emitted text nor with an error.
    The exit next to it does call back: the same request for a target
    whose emission is skipped ends in the callback with
    [<path>: File not found]. *)
Theorem loader_dies_without_files :
  reported_output (RT := demo_runtime) demo_loader_dts "declare var y: number"
    demo_fs empty_world
  = Some (mkEmitOutput [] false)
  /\ (loader (RT := demo_runtime) demo_loader_dts "declare var y: number"
        demo_fs empty_world).1 = Threw
  /\ (forall cb : Callback,
        (loader (RT := demo_runtime) demo_loader_dts "declare var y: number"
           demo_fs empty_world).1 <> Called cb)
  /\ (loader (RT := demo_runtime) demo_loader_plain "" demo_fs empty_world).1
     = Called (CallbackError "/p/a.ts: File not found").
Proof.
  assert (Hthrew : (loader (RT := demo_runtime) demo_loader_dts
                      "declare var y: number" demo_fs empty_world).1 = Threw)
    by (vm_compute; reflexivity).
  split; [vm_compute; reflexivity|]. split; [exact Hthrew|].
  split; [|vm_compute; reflexivity].
  intros cb Hcb. rewrite Hthrew in Hcb. discriminate Hcb.
Qed.

(** C10. When a request with source maps on reaches the callback without
    an error, the source map it hands over is the parsed text of the first
    output file with [sources] set to the list of the target's path alone,
    [file] to the target's path and [sourcesContent] to the list of the
    request's text alone, whatever the parsed map held there; its other
    properties are those of the parsed map. *)
Theorem source_map_fields `{RT : Runtime} (this : WebPackLoader)
    (content : string) (fs : FileSystem) (w : World) (contents : string)
    (sm : option JsObject) :
  sourceMap this = true ->
  (loader this content fs w).1 = Called (CallbackOk contents sm) ->
  exists sourceMap_ output map_file parsed,
    sm = Some sourceMap_
    /\ get_prop "sources" sourceMap_ = Some (JArray [JString (resourcePath this)])
    /\ get_prop "file" sourceMap_ = Some (JString (resourcePath this))
    /\ get_prop "sourcesContent" sourceMap_ = Some (JArray [JString content])
    /\ reported_output this content fs w = Some output
    /\ outputFiles output !! 0%nat = Some map_file
    /\ JSON_parse (output_text map_file) = Some parsed
    /\ forall key, key <> "sources" -> key <> "file" -> key <> "sourcesContent" ->
                   get_prop key sourceMap_ = get_prop key parsed.
Proof.
  intros Hsm. rewrite loader_outcome.
  destruct (reported_output this content fs w) as [output|]; [|discriminate].
  intros Hcb. apply loader_callback_emitted in Hcb as (_ & _ & Hmap).
  rewrite Hsm in Hmap. destruct Hmap as (map_file & parsed & H0 & Hp & ->).
  eexists _, output, map_file, parsed. split; [done|].
  repeat split; try done.
  - by rewrite !get_set_prop.
  - by rewrite !get_set_prop.
  - by rewrite !get_set_prop.
  - intros key H1 H2 H3. rewrite !get_set_prop.
    apply String.eqb_neq in H1, H2, H3. by rewrite H1, H2, H3.
Qed.

Lemma source_map_fields_witness :
  exists sourceMap_,
    get_prop "sources" sourceMap_ = Some (JArray [JString "/p/a.ts"])
    /\ get_prop "file" sourceMap_ = Some (JString "/p/a.ts")
    /\ get_prop "sourcesContent" sourceMap_ = Some (JArray [JString "let x=1"])
    /\ get_prop "version" sourceMap_ = Some (JNumber 3).
Proof.
  destruct (source_map_fields (RT := demo_runtime) demo_loader "let x=1" demo_fs
              empty_world "let x=1"
              (Some [("version", JNumber 3); ("file", JString "/p/a.ts");
                     ("sources", JArray [JString "/p/a.ts"]);
                     ("sourcesContent", JArray [JString "let x=1"])])
              eq_refl eq_refl)
    as (sourceMap_ & output & map_file & parsed & Hsm & H1 & H2 & H3 & _).
  exists sourceMap_. inversion Hsm; subst sourceMap_.
  split; [exact H1 | split; [exact H2 | split; [exact H3 | reflexivity]]].
Defined.

(** ** Diagnostics *)

Lemma append_assoc (s1 s2 s3 : string) :
  (s1 +:+ s2) +:+ s3 = s1 +:+ (s2 +:+ s3).
Proof.
  induction s1 as [|c s1 IH]; [done|].
  change (String c ((s1 +:+ s2) +:+ s3) = String c (s1 +:+ s2 +:+ s3)).
  by rewrite IH.
Qed.

Lemma append_empty_l (s : string) : "" +:+ s = s.
Proof. reflexivity. Qed.

(** The links of a chain below the first, as the library writes them. *)
Lemma flatten_chain_links :
  forall (c : DiagnosticMessageChain) (newLine : string) (depth : nat),
    flatten_chain newLine (S depth) c
    = foldr String.append ""
        (imap (fun i t => newLine +:+ indentation (S depth + i) +:+ t)
              (chain_texts c)).
Proof.
  fix IH 1. intros [t next] newLine depth.
  cbn [flatten_chain chain_texts]. rewrite imap_cons. cbn [foldr].
  rewrite Nat.add_0_r, !append_assoc. do 3 f_equal.
  destruct next as [c'|]; [|done].
  rewrite IH. f_equal. apply imap_ext. intros i x _. simpl.
  by rewrite Nat.add_succ_r.
Qed.

(** C7, as the code has it. [formatDiagnostic] flattens the message with
    the line feed as separator. With the library's flattening, a plain
    message is left as it is and a chain becomes its texts in order, each
    one after the first preceded by a line feed and two spaces for each
    level of its depth. A diagnostic with a source file whose line index
    puts the offset at the 1-based line [L] and column [C] is formatted as
    [(L,C): ] followed by the flattened message; one without a source file
    as the flattened message alone. *)
Theorem formatDiagnostic_format `{RT : Runtime} (diagnostic : Diagnostic) :
  (forall messageText newLine,
      flattenDiagnosticMessageText messageText newLine
      = demo_flatten messageText newLine) ->
  let flattened :=
    match messageText diagnostic with
    | MessageString s => s
    | MessageChain c =>
        match chain_texts c with
        | [] => ""
        | t :: rest =>
            t +:+ foldr String.append ""
                    (imap (fun i t' =>
                             String (Ascii.ascii_of_nat 10)
                               (indentation (S i) +:+ t'))
                          rest)
        end
    end in
  (forall f L C,
      file diagnostic = Some f ->
      line (getLineAndCharacterOfPosition f (start diagnostic)) + 1 = L ->
      character (getLineAndCharacterOfPosition f (start diagnostic)) + 1 = C ->
      formatDiagnostic diagnostic
      = "(" +:+ pretty L +:+ "," +:+ pretty C +:+ "): " +:+ flattened)
  /\ (file diagnostic = None -> formatDiagnostic diagnostic = flattened).
Proof.
  intros Hlib flattened.
  assert (Hflat : flattenDiagnosticMessageText (messageText diagnostic) newline
                  = flattened).
  { rewrite Hlib. subst flattened. unfold demo_flatten.
    destruct (messageText diagnostic) as [s | [t next]]; [done|].
    cbn [flatten_chain chain_texts]. rewrite append_empty_l.
    destruct next as [c'|]; [|done].
    by rewrite flatten_chain_links. }
  unfold formatDiagnostic. rewrite Hflat. split.
  - intros f L C Hf <- <-. by rewrite Hf.
  - intros Hf. by rewrite Hf.
Qed.

Lemma formatDiagnostic_format_witness :
  formatDiagnostic (RT := demo_runtime) demo_semantic
  = "(3,5): Type 'string' is not assignable to type 'Y'."
    +:+ String (Ascii.ascii_of_nat 10) "  Property 'y' is missing."
  /\ formatDiagnostic (RT := demo_runtime) demo_syntactic = "';' expected.".
Proof.
  split.
  - apply (proj1 (formatDiagnostic_format (RT := demo_runtime) demo_semantic
                    (fun _ _ => eq_refl))
             demo_source_file 3 5); reflexivity.
  - apply (proj2 (formatDiagnostic_format (RT := demo_runtime) demo_syntactic
                    (fun _ _ => eq_refl))).
    reflexivity.
Defined.

(** C7 as stated does not hold: the library does not just join the texts
    of a chain with newlines, it also indents every text after the first,
    so a chained message is not formatted as [(L,C): ] followed by the
    texts joined by newlines. *)
Lemma formatDiagnostic_indents_chain :
  ~ (forall (diagnostic : Diagnostic) (f : SourceFile) (L C : Z),
        file diagnostic = Some f ->
        line (getLineAndCharacterOfPosition f (start diagnostic)) + 1 = L ->
        character (getLineAndCharacterOfPosition f (start diagnostic)) + 1 = C ->
        formatDiagnostic (RT := demo_runtime) diagnostic
        = "(" +:+ pretty L +:+ "," +:+ pretty C +:+ "): "
              +:+ joined_with_newlines (messageText diagnostic)).
Proof.
  intros H.
  specialize (H demo_semantic demo_source_file 3 5 eq_refl eq_refl eq_refl).
  vm_compute in H. discriminate H.
Qed.

(** C8. When the program of a session reports its diagnostics to the emit
    plugin, the plugin appends one [DiagosticError] per semantic diagnostic
    to [compilation.warnings] and one per syntactic diagnostic to
    [compilation.errors], in order, and nothing else: what it adds to the
    errors comes from the syntactic diagnostics only, what it adds to the
    warnings from the semantic ones only. *)
Theorem emit_plugin_classifies `{RT : Runtime} (id : string) (fs : FileSystem)
    (compilation : Compilation) (w : World) (semantic syntactic : list Diagnostic) :
  reported_diagnostics id fs w = Some (semantic, syntactic) ->
  exists compilation' instance,
    (emit_plugin id fs compilation w).1 = Some compilation'
    /\ loaderInstances w !! id = Some instance
    /\ warnings compilation'
       = warnings compilation
         ++ map (fun d => DiagnosticEntry
                            (new_DiagosticError d (options_context (inst_loader instance))))
                semantic
    /\ errors compilation'
       = errors compilation
         ++ map (fun d => DiagnosticEntry
                            (new_DiagosticError d (options_context (inst_loader instance))))
                syntactic.
Proof.
  unfold reported_diagnostics, emit_plugin.
  destruct (loaderInstances w !! id) as [instance|]; [|discriminate].
  destruct (run_service _ _ _ _ _) as [[[[sem syn] service']|] h'];
    simpl; [|discriminate].
  intros H. inversion H; subst. by eexists _, instance.
Qed.

Lemma emit_plugin_classifies_witness :
  exists compilation',
    (emit_plugin (RT := demo_runtime) "/p" demo_fs
       (mkCompilation [ForeignEntry "Module not found"] []) demo_world).1
    = Some compilation'
    /\ warnings compilation'
       = [ForeignEntry "Module not found";
          DiagnosticEntry (new_DiagosticError (RT := demo_runtime) demo_semantic "/p")]
    /\ errors compilation'
       = [DiagnosticEntry (new_DiagosticError (RT := demo_runtime) demo_syntactic "/p")].
Proof.
  destruct (emit_plugin_classifies (RT := demo_runtime) "/p" demo_fs
              (mkCompilation [ForeignEntry "Module not found"] []) demo_world
              [demo_semantic] [demo_syntactic] eq_refl)
    as (compilation' & instance & Hc & Hi & Hw & He).
  exists compilation'. split; [exact Hc|].
  vm_compute in Hi. inversion Hi; subst instance.
  split; [exact Hw | exact He].
Defined.

(** ** Sessions *)

Lemma getLoaderInstance_frame `{RT : Runtime} (loader : WebPackLoader)
    (fs : FileSystem) (w : World) (id : string) :
  id <> instance_id loader ->
  loaderInstances (getLoaderInstance loader fs w).2 !! id = loaderInstances w !! id.
Proof.
  intros Hne. unfold getLoaderInstance.
  destruct (parseQuery (query loader)) as [options|]; [|done].
  destruct (loaderInstances w !! instance_id loader); [done|].
  destruct (createService loader options fs) as [[instance emitted]|]; [|done].
  simpl. by rewrite lookup_insert_ne.
Qed.

(** A lookup only reads the entry of its own id. *)
Lemma getLoaderInstance_local `{RT : Runtime} (loader : WebPackLoader)
    (fs : FileSystem) (w : World) (others : gmap string LoaderInstance) :
  others !! instance_id loader = loaderInstances w !! instance_id loader ->
  let r := getLoaderInstance loader fs w in
  let r' := getLoaderInstance loader fs
              (mkWorld others (currentLoader w) (hostEvents w)) in
  r'.1 = r.1
  /\ currentLoader r'.2 = currentLoader r.2
  /\ hostEvents r'.2 = hostEvents r.2
  /\ loaderInstances r'.2 !! instance_id loader
     = loaderInstances r.2 !! instance_id loader.
Proof.
  intros Hsame. unfold getLoaderInstance. simpl. rewrite Hsame.
  destruct (parseQuery (query loader)) as [options|]; [|simpl; auto].
  destruct (loaderInstances w !! instance_id loader) eqn:Hw;
    [simpl; rewrite Hw; auto|].
  destruct (createService loader options fs) as [[instance emitted]|];
    [|simpl; rewrite Hw; auto].
  simpl. rewrite !lookup_insert_eq. auto.
Qed.

Lemma loader_frame `{RT : Runtime} (this : WebPackLoader) (content : string)
    (fs : FileSystem) (w : World) (id : string) :
  id <> instance_id this ->
  loaderInstances (loader this content fs w).2 !! id = loaderInstances w !! id.
Proof.
  intros Hne. pose proof (getLoaderInstance_frame this fs w id Hne) as Hg.
  unfold loader.
  destruct (getLoaderInstance this fs w) as [[instance|] w1]; [|done].
  destruct (loader_emit this content fs instance (hostEvents w1))
    as [[[output|] instance'] evs]; simpl in *; by rewrite lookup_insert_ne.
Qed.

Lemma loader_local `{RT : Runtime} (this : WebPackLoader) (content : string)
    (fs : FileSystem) (w : World) (others : gmap string LoaderInstance) :
  others !! instance_id this = loaderInstances w !! instance_id this ->
  let r := loader this content fs w in
  let r' := loader this content fs
              (mkWorld others (currentLoader w) (hostEvents w)) in
  r'.1 = r.1
  /\ loaderInstances r'.2 !! instance_id this
     = loaderInstances r.2 !! instance_id this.
Proof.
  intros Hsame.
  destruct (getLoaderInstance_local this fs w others Hsame) as (H1 & _ & H3 & H4).
  unfold loader.
  destruct (getLoaderInstance this fs w) as [r1 w1].
  destruct (getLoaderInstance this fs _) as [r1' w1'].
  simpl in *. subst r1'. destruct r1 as [instance|]; [|by simpl].
  rewrite H3.
  destruct (loader_emit this content fs instance (hostEvents w1))
    as [[[output|] instance'] evs]; simpl; by rewrite !lookup_insert_eq.
Qed.

Lemma perform_frame `{RT : Runtime} (op : Operation) (w : World) (id : string) :
  id <> session_of op ->
  loaderInstances (perform op w).2 !! id = loaderInstances w !! id.
Proof.
  intros Hne. destruct op as [this content fs | sid fs keys | sid fs c];
    simpl in *.
  - by apply loader_frame.
  - unfold watch_run_plugin.
    destruct (loaderInstances w !! sid) as [instance|]; [|done].
    destruct (watch_run fs keys (inst_files instance)); simpl;
      by rewrite lookup_insert_ne.
  - unfold emit_plugin.
    destruct (loaderInstances w !! sid) as [instance|]; [|done].
    destruct (run_service _ _ _ _ _) as [[[[sem syn] service']|] h']; simpl;
      by rewrite lookup_insert_ne.
Qed.

(** Over any operation, a record that is still stored afterwards has a
    version at least as great as before. *)
Lemma perform_versions `{RT : Runtime} (op : Operation) (w : World)
    (id : string) (instance instance' : LoaderInstance) (path : string)
    (f f' : FileRecord) :
  loaderInstances w !! id = Some instance ->
  inst_files instance !! path = Some f ->
  loaderInstances (perform op w).2 !! id = Some instance' ->
  inst_files instance' !! path = Some f' ->
  version f <= version f'.
Proof.
  intros Hi Hf Hi' Hf'.
  destruct (decide (id = session_of op)) as [->|Hne];
    [|rewrite perform_frame, Hi in Hi' by done;
      assert (instance' = instance) by congruence; subst;
      assert (f' = f) by congruence; subst; lia].
  destruct op as [this content fs | sid fs keys | sid fs c]; simpl in *.
  - unfold loader, getLoaderInstance in Hi'. rewrite Hi in Hi'.
    destruct (parseQuery (query this)) as [options|];
      [|simpl in Hi'; assert (instance' = instance) by congruence; subst;
        assert (f' = f) by congruence; subst; lia].
    unfold loader_emit in Hi'.
    destruct (update_file_versions (inst_files instance) (resourcePath this)
                content path f Hf) as (f1 & Hf1 & Hv).
    pose proof (run_service_keeps fs (Some this)
                  (config_fileNames (inst_config instance)) path f1
                  (getEmitOutput (service instance) (resourcePath this))
                  (request_host this content instance (hostEvents w))
                  (or_introl Hf1)) as Hk.
    destruct (run_service _ _ _ _ _) as [[[output service']|] h'];
      simpl in Hi', Hk; rewrite lookup_insert_eq in Hi';
      inversion Hi'; subst instance'; simpl in Hf';
      (destruct Hk as [Hk | [Hk _]]; [|congruence]);
      assert (f' = f1) by congruence; subst; lia.
  - unfold watch_run_plugin in Hi'. rewrite Hi in Hi'.
    destruct (watch_run fs keys (inst_files instance)) as [files'|files'] eqn:Hrun;
      simpl in Hi'; rewrite lookup_insert_eq in Hi';
      inversion Hi'; subst instance'; simpl in Hf'.
    + destruct (watch_run_versions fs keys _ files' (or_introl Hrun) path f Hf)
        as (f2 & Hf2 & Hv).
      assert (f' = f2) by congruence. subst. lia.
    + destruct (watch_run_versions fs keys _ files' (or_intror Hrun) path f Hf)
        as (f2 & Hf2 & Hv).
      assert (f' = f2) by congruence. subst. lia.
  - unfold emit_plugin in Hi'. rewrite Hi in Hi'.
    pose proof (run_service_keeps fs (currentLoader w)
                  (config_fileNames (inst_config instance)) path f
                  (getProgramDiagnostics (service instance))
                  (mkHost (inst_files instance) (hostEvents w))
                  (or_introl Hf)) as Hk.
    destruct (run_service _ _ _ _ _) as [[[[sem syn] service']|] h'];
      simpl in Hi', Hk; rewrite lookup_insert_eq in Hi';
      inversion Hi'; subst instance'; simpl in Hf';
      (destruct Hk as [Hk | [Hk _]]; [|congruence]);
      assert (f' = f) by congruence; subst; lia.
Qed.

(** C9. The session id is the build context path followed by the query.
    An operation (a compile request, a watch-run or an emit plugin call)
    leaves the session stored under any other id as it is, and its result
    and what it does to its own session are the same whatever the other
    sessions hold: it neither changes nor reads their records, also when
    the paths and texts are the same. A lookup that returns a session has
    it stored under its id, and every later lookup with the same id returns
    that session and stores nothing. *)
Theorem session_isolation `{RT : Runtime} (op : Operation) (w : World) :
  (forall id, id <> session_of op ->
     loaderInstances (perform op w).2 !! id = loaderInstances w !! id)
  /\ (forall others : gmap string LoaderInstance,
        others !! session_of op = loaderInstances w !! session_of op ->
        let w' := mkWorld others (currentLoader w) (hostEvents w) in
        (perform op w').1 = (perform op w).1
        /\ loaderInstances (perform op w').2 !! session_of op
           = loaderInstances (perform op w).2 !! session_of op)
  /\ (forall loader fs instance w1,
        getLoaderInstance loader fs w = (Some instance, w1) ->
        loaderInstances w1 !! instance_id loader = Some instance
        /\ forall loader' fs',
             instance_id loader' = instance_id loader ->
             is_Some (parseQuery (query loader')) ->
             getLoaderInstance loader' fs' w1 = (Some instance, w1)).
Proof.
  split; [|split].
  - intros id Hne. by apply perform_frame.
  - intros others Hsame w'. subst w'.
    destruct op as [this content fs | sid fs keys | sid fs c]; simpl in *.
    + destruct (loader_local this content fs w others Hsame) as [H1 H2].
      simpl in *. by rewrite H1.
    + unfold watch_run_plugin. simpl. rewrite Hsame.
      destruct (loaderInstances w !! sid) as [instance|] eqn:Hw;
        [|simpl; by rewrite Hw].
      destruct (watch_run fs keys (inst_files instance)); simpl;
        by rewrite !lookup_insert_eq.
    + unfold emit_plugin. simpl. rewrite Hsame.
      destruct (loaderInstances w !! sid) as [instance|] eqn:Hw;
        [|simpl; by rewrite Hw].
      destruct (run_service _ _ _ _ _) as [[[[sem syn] service']|] h']; simpl;
        by rewrite !lookup_insert_eq.
  - intros loader fs instance w1 Hget.
    assert (Hstored : loaderInstances w1 !! instance_id loader = Some instance).
    { unfold getLoaderInstance in Hget.
      destruct (parseQuery (query loader)) as [options|]; [|discriminate].
      destruct (loaderInstances w !! instance_id loader) eqn:Hw.
      - by inversion Hget; subst.
      - destruct (createService loader options fs) as [[i emitted]|];
          [|discriminate].
        inversion Hget; subst. simpl. apply lookup_insert_eq. }
    split; [done|].
    intros loader' fs' Hid [options Hq]. unfold getLoaderInstance.
    by rewrite Hq, Hid, Hstored.
Qed.

Lemma session_isolation_witness :
  let op := OpCompile demo_loader "let x=1" demo_fs in
  loaderInstances (perform (RT := demo_runtime) op demo_world).2 !! "/p"
  = loaderInstances demo_world !! "/p"
  /\ (perform (RT := demo_runtime) op
        (mkWorld ∅ (currentLoader demo_world) (hostEvents demo_world))).1
     = (perform op demo_world).1
  /\ exists instance,
       getLoaderInstance (RT := demo_runtime) demo_loader_plain demo_fs demo_world
       = (Some instance, demo_world)
       /\ getLoaderInstance (RT := demo_runtime) demo_loader_dts demo_fs_removed
            demo_world
          = (Some instance, demo_world).
Proof.
  intros op.
  destruct (session_isolation (RT := demo_runtime) op demo_world)
    as (Hframe & Hlocal & Hmemo).
  split; [apply Hframe; discriminate|]. split.
  - apply (Hlocal ∅ eq_refl).
  - assert (exists instance,
               getLoaderInstance (RT := demo_runtime) demo_loader_plain demo_fs
                 demo_world = (Some instance, demo_world))
      as [instance Hget] by (eexists; reflexivity).
    exists instance. split; [exact Hget|].
    apply (proj2 (Hmemo _ _ _ _ Hget) demo_loader_dts demo_fs_removed);
      [reflexivity | by eexists].
Defined.

(** ** Versions *)

(** C1, as the code has it. A compile request's text update stores the
    new text and adds exactly one to the version of the path, also when
    the text is the one already stored; a path without a record gets one
    at version 0, which the same update takes to 1; the update lowers no
    record's version; over any sequence of operations (compile requests,
    watch-runs and emit plugin calls) after each of which the session
    still holds a record for a path, the version stored for that path at
    the end is at least the one stored at the start; and a path without a
    record, also one whose record was deleted, gets a record at version 0
    with the text on disk when the service asks for its snapshot. *)
Theorem update_file_bumps_version `{RT : Runtime} (files : FilesMap)
    (fileName content : string) :
  (forall f, files !! fileName = Some f ->
     update_file fileName content files !! fileName
     = Some (mkFile (version f + 1) content))
  /\ (forall f, files !! fileName = Some f -> content = text f ->
        update_file fileName content files !! fileName
        = Some (mkFile (version f + 1) (text f)))
  /\ (files !! fileName = None ->
        ensure_file fileName files !! fileName = Some (mkFile 0 "")
        /\ update_file fileName content files !! fileName
           = Some (mkFile 1 content))
  /\ (forall path f, files !! path = Some f ->
        exists f', update_file fileName content files !! path = Some f'
                   /\ version f <= version f')
  /\ (forall (ops : list Operation) (w : World) (id path : string) (v v' : Z),
        stored_version id path w = Some v ->
        stays_stored id path ops w ->
        stored_version id path (perform_all ops w) = Some v' ->
        v <= v')
  /\ (forall (fs : FileSystem) (cur : option WebPackLoader)
             (events : list HostEvent) (t : string),
        files !! fileName = None ->
        fileExists fs fileName = true ->
        readFileSync fs fileName = Some t ->
        exists events',
          getScriptSnapshot fs cur fileName (mkHost files events)
          = (Some t, mkHost (<[fileName := mkFile 0 t]> files) events')).
Proof.
  split; [|split; [|split; [|split; [|split]]]].
  - intros f Hf. by rewrite update_file_lookup, Hf.
  - intros f Hf ->. by rewrite update_file_lookup, Hf.
  - intros Hn. split.
    + unfold ensure_file. rewrite Hn. apply lookup_insert_eq.
    + by rewrite update_file_lookup, Hn.
  - intros path f. apply update_file_versions.
  - intros ops. induction ops as [|op rest IH]; intros w id path v v' Hv Hst Hv'.
    + simpl in Hv'. rewrite Hv in Hv'. inversion Hv'. lia.
    + destruct Hst as [[v1 Hv1] Hst].
      change (perform_all (op :: rest) w)
        with (perform_all rest (perform op w).2) in Hv'.
      assert (v <= v1) as Hle.
      { unfold stored_version in Hv, Hv1.
        destruct (loaderInstances w !! id) as [instance|] eqn:Hi;
          [|discriminate].
        destruct (loaderInstances (perform op w).2 !! id) as [instance'|] eqn:Hi';
          [|discriminate].
        destruct (inst_files instance !! path) as [f|] eqn:Hf; [|discriminate].
        destruct (inst_files instance' !! path) as [f'|] eqn:Hf'; [|discriminate].
        simpl in Hv, Hv1. inversion Hv. inversion Hv1. subst.
        exact (perform_versions op w id instance instance' path f f'
                 Hi Hf Hi' Hf'). }
      pose proof (IH _ _ _ _ _ Hv1 Hst Hv'). lia.
  - intros fs cur evs t Hn He Hr. unfold getScriptSnapshot. simpl.
    rewrite He, Hn, Hr. by eexists.
Qed.

Lemma update_file_bumps_version_witness :
  update_file "/p/a.ts" "let x=1" demo_files !! "/p/a.ts"
  = Some (mkFile 2 "let x=1")
  /\ update_file "/p/b.ts" "let z=2" demo_files !! "/p/b.ts"
     = Some (mkFile 1 "let z=2")
  /\ (exists f', update_file "/p/a.ts" "let x=1" demo_files !! "/p/lib.d.ts" = Some f'
                 /\ 0 <= version f')
  /\ (stored_version "/p" "/p/lib.d.ts" demo_world = Some 0
      /\ stored_version "/p" "/p/lib.d.ts" demo_world_refreshed = Some 2
      /\ 0 <= 2)
  /\ exists events',
       getScriptSnapshot demo_fs None "/p/lib.d.ts"
         (mkHost (delete "/p/lib.d.ts" demo_files) [])
       = (Some "declare var y: number",
          mkHost (<["/p/lib.d.ts" := mkFile 0 "declare var y: number"]>
                    (delete "/p/lib.d.ts" demo_files)) events').
Proof.
  pose proof (update_file_bumps_version (RT := demo_runtime) demo_files
                "/p/a.ts" "let x=1") as (Hset & _ & _ & Hkeep & Hall & _).
  pose proof (update_file_bumps_version (RT := demo_runtime) demo_files
                "/p/b.ts" "let z=2") as (_ & _ & Hnew & _).
  pose proof (update_file_bumps_version (RT := demo_runtime)
                (delete "/p/lib.d.ts" demo_files) "/p/lib.d.ts" "")
    as (_ & _ & _ & _ & _ & Hload).
  split; [exact (Hset (mkFile 1 "let x=1") eq_refl)|].
  split; [exact (proj2 (Hnew eq_refl))|].
  split; [exact (Hkeep "/p/lib.d.ts" (mkFile 0 "declare var y: number") eq_refl)|].
  split; [|exact (Hload demo_fs None [] "declare var y: number"
                    eq_refl eq_refl eq_refl)].
  assert (stored_version "/p" "/p/lib.d.ts" demo_world = Some 0) as Hv
    by reflexivity.
  assert (stored_version "/p" "/p/lib.d.ts" demo_world_refreshed = Some 2) as Hv'
    by reflexivity.
  split; [exact Hv|]. split; [exact Hv'|].
  apply (Hall [OpWatchRun "/p" demo_fs_edited ["/p/lib.d.ts"];
               OpWatchRun "/p" demo_fs_edited ["/p/lib.d.ts"]]
              demo_world "/p" "/p/lib.d.ts" 0 2 Hv); [|exact Hv'].
  split; [by exists 1|]. split; [by exists 2|]. exact I.
Defined.

(** C1 as stated does not hold: the version stored for a path can go
    down. In the session of [demo_world_refreshed] the record of
    [/p/lib.d.ts] is at version 2. A compile request for [/p/a.ts] while
    [/p/lib.d.ts] is not on disk deletes the record, and the next request,
    with the file back on disk, creates it again at version 0. Both
    requests reach the callback without an error. *)
Lemma stored_version_restarts :
  ~ (forall (RT : Runtime) (ops : list Operation) (w : World) (id path : string)
            (v v' : Z),
        stored_version id path w = Some v ->
        stored_version id path (perform_all ops w) = Some v' ->
        v <= v').
Proof.
  intros H.
  specialize (H demo_runtime
                [OpCompile demo_loader_plain "let x=1" demo_fs_removed;
                 OpCompile demo_loader_plain "let x=1" demo_fs]
                demo_world_refreshed "/p" "/p/lib.d.ts" 2 0 eq_refl eq_refl).
  lia.
Qed.

(** * Further properties *)

(** ** The on-demand loader and the registry *)

(** X1. The snapshot handed to the compiler is the text the registry holds
    for the path after the call, and there is none exactly when the path
    has no record then; [getScriptVersion] answers for the same paths. *)
Theorem snapshot_is_registered_text (fs : FileSystem)
    (cur : option WebPackLoader) (fileName : string) (h : Host) :
  let r := getScriptSnapshot fs cur fileName h in
  r.1 = text <$> files r.2 !! fileName
  /\ (r.1 = None <-> files r.2 !! fileName = None)
  /\ (r.1 = None <-> getScriptVersion fileName r.2 = None).
Proof.
  assert (H : (getScriptSnapshot fs cur fileName h).1
              = text <$> files (getScriptSnapshot fs cur fileName h).2 !! fileName).
  { unfold getScriptSnapshot. destruct (fileExists fs fileName).
    - destruct (files h !! fileName) as [f|] eqn:Hf; simpl.
      + by rewrite Hf.
      + destruct (readFileSync fs fileName) as [t|]; simpl.
        * by rewrite lookup_insert_eq.
        * by rewrite Hf.
    - simpl. by rewrite lookup_delete_eq. }
  simpl. split; [exact H|]. unfold getScriptVersion. rewrite H.
  destruct (files (getScriptSnapshot fs cur fileName h).2 !! fileName);
    simpl; split; split; intros; done.
Qed.

Lemma snapshot_is_registered_text_witness :
  (getScriptSnapshot demo_fs None "/p/b.d.ts" demo_host).1 = None
  /\ getScriptVersion "/p/b.d.ts"
       (getScriptSnapshot demo_fs None "/p/b.d.ts" demo_host).2 = None.
Proof.
  destruct (snapshot_is_registered_text demo_fs None "/p/b.d.ts" demo_host)
    as (_ & Hreg & Hver).
  assert (H : (getScriptSnapshot demo_fs None "/p/b.d.ts" demo_host).1 = None)
    by (apply (proj2 Hreg); reflexivity).
  split; [exact H | exact (proj1 Hver H)].
Defined.

(** One call: every record afterwards is one from before or was read from
    disk under the requested path; a record goes only when it is the
    requested one and the path is not a file on disk. *)
Lemma getScriptSnapshot_records (fs : FileSystem) (cur : option WebPackLoader)
    (fileName : string) (h : Host) (path : string) :
  (forall f, files (getScriptSnapshot fs cur fileName h).2 !! path = Some f ->
     files h !! path = Some f \/ loaded_from_disk fs path f)
  /\ (is_Some (files h !! path) ->
      files (getScriptSnapshot fs cur fileName h).2 !! path = None ->
      fileExists fs path = false).
Proof.
  unfold getScriptSnapshot, loaded_from_disk.
  destruct (decide (path = fileName)) as [->|Hne].
  - destruct (fileExists fs fileName) eqn:He.
    + destruct (files h !! fileName) as [g|] eqn:Hg; simpl.
      * split; [intros f Hf; left; congruence | intros _ Hn; congruence].
      * destruct (readFileSync fs fileName) as [t|] eqn:Hr; simpl.
        -- rewrite lookup_insert_eq. split.
           ++ intros f Hf. inversion Hf; subst. by right.
           ++ intros [? ?]; congruence.
        -- split; [intros f Hf; left; congruence | intros [? ?]; congruence].
    + simpl. rewrite lookup_delete_eq. split; [intros; congruence | done].
  - destruct (fileExists fs fileName) eqn:He.
    + destruct (files h !! fileName) as [g|] eqn:Hg; simpl.
      * split; [by left | intros [? ?] ?; congruence].
      * destruct (readFileSync fs fileName) as [t|] eqn:Hr; simpl.
        -- rewrite lookup_insert_ne by done.
           split; [by left | intros [? ?] ?; congruence].
        -- split; [by left | intros [? ?] ?; congruence].
    + simpl. rewrite lookup_delete_ne by done.
      split; [by left | intros [? ?] ?; congruence].
Qed.

(** X2. Whatever the compiler asks for during a call, every record the
    registry holds afterwards is either a record it held before, unchanged,
    or a record at version 0 with the text read from a file on disk; and a
    record is dropped only when its path is not a file on disk. *)
Theorem run_service_records {R : Type} (fs : FileSystem)
    (cur : option WebPackLoader) (fileNames : list string) (s : Service R)
    (h : Host) (path : string) :
  (forall f, files (run_service fs cur fileNames s h).2 !! path = Some f ->
     files h !! path = Some f \/ loaded_from_disk fs path f)
  /\ (is_Some (files h !! path) ->
      files (run_service fs cur fileNames s h).2 !! path = None ->
      fileExists fs path = false).
Proof.
  revert h. induction s as [r | | k IH | q k IH | q k IH]; intros h; simpl.
  - split; [by left | intros [? ?] ?; congruence].
  - split; [by left | intros [? ?] ?; congruence].
  - apply IH.
  - apply IH.
  - destruct (getScriptSnapshot_records fs cur q h path) as [Hrec Hgone].
    destruct (getScriptSnapshot fs cur q h) as [snapshot h1]. simpl in *.
    destruct (IH snapshot h1) as [IHrec IHgone]. split.
    + intros f Hf. destruct (IHrec f Hf) as [H1 | Hl]; [|by right].
      by apply Hrec.
    + intros Hsome Hnone.
      destruct (files h1 !! path) as [g|] eqn:Hg.
      * apply IHgone; [by eexists | done].
      * by apply Hgone.
Qed.

Lemma run_service_records_witness :
  loaded_from_disk demo_fs "/p/lib.d.ts" (mkFile 0 "declare var y: number").
Proof.
  assert (Hrun : files
                   (run_service demo_fs (Some demo_loader_plain) []
                      (demo_getEmitOutput false "/p/a.ts")
                      (mkHost (<["/p/a.ts" := mkFile 1 "let x=1"]> ∅) [])).2
                 !! "/p/lib.d.ts"
                 = Some (mkFile 0 "declare var y: number"))
    by (vm_compute; reflexivity).
  destruct (proj1 (run_service_records demo_fs (Some demo_loader_plain) []
                     (demo_getEmitOutput false "/p/a.ts")
                     (mkHost (<["/p/a.ts" := mkFile 1 "let x=1"]> ∅) [])
                     "/p/lib.d.ts")
              (mkFile 0 "declare var y: number") Hrun) as [Hold | Hnew].
  - vm_compute in Hold. discriminate Hold.
  - exact Hnew.
Defined.

(** A file on disk that has a record keeps it through a call. *)
Lemma run_service_keeps_on_disk {R : Type} (fs : FileSystem)
    (cur : option WebPackLoader) (fileNames : list string) (s : Service R)
    (h : Host) (path : string) :
  fileExists fs path = true ->
  is_Some (files h !! path) ->
  is_Some (files (run_service fs cur fileNames s h).2 !! path).
Proof.
  intros He [f Hf].
  destruct (run_service_keeps fs cur fileNames path f s h (or_introl Hf))
    as [Hk | [_ Hk]]; [by eexists | congruence].
Qed.

(** One call adds at most one event, a dependency on the requested path. *)
Lemma getScriptSnapshot_events (fs : FileSystem) (cur : option WebPackLoader)
    (fileName : string) (h : Host) :
  let r := getScriptSnapshot fs cur fileName h in
  events r.2 = events h
  \/ (events r.2 = events h ++ [AddDependency
                                  (default "" (resourcePath <$> cur)) fileName]
      /\ is_Some cur
      /\ isDefinition fileName = true
      /\ fileExists fs fileName = true
      /\ is_Some (files r.2 !! fileName)).
Proof.
  unfold getScriptSnapshot. destruct (fileExists fs fileName) eqn:He;
    [|by left].
  destruct (files h !! fileName) as [f|] eqn:Hf; simpl.
  - destruct cur as [l|]; [|by left].
    destruct (isDefinition fileName); [|by left].
    right. simpl. rewrite Hf. eauto.
  - destruct (readFileSync fs fileName) as [t|]; simpl; [|by left].
    destruct cur as [l|]; [|by left].
    destruct (isDefinition fileName); [|by left].
    right. simpl. rewrite lookup_insert_eq. eauto.
Qed.

(** What a call appends to the calls made into webpack. *)
Lemma run_service_appends {R : Type} (fs : FileSystem)
    (cur : option WebPackLoader) (fileNames : list string) (s : Service R) :
  forall h : Host,
    exists added,
      events (run_service fs cur fileNames s h).2 = events h ++ added
      /\ forall e, e ∈ added ->
           exists l path,
             cur = Some l
             /\ e = AddDependency (resourcePath l) path
             /\ isDefinition path = true
             /\ fileExists fs path = true.
Proof.
  induction s as [r | | k IH | q k IH | q k IH]; intros h; simpl.
  - exists []. rewrite app_nil_r. split; [done|].
    intros e He. by apply elem_of_nil in He.
  - exists []. rewrite app_nil_r. split; [done|].
    intros e He. by apply elem_of_nil in He.
  - apply IH.
  - apply IH.
  - pose proof (getScriptSnapshot_events fs cur q h) as Hev.
    destruct (getScriptSnapshot fs cur q h) as [snapshot h1]. simpl in Hev.
    destruct (IH snapshot h1) as (added & Happ & Hdeps).
    destruct Hev as [Hsame | (Hone & [l ->] & Hd & He & _)].
    + exists added. by rewrite Happ, Hsame.
    + exists (AddDependency (resourcePath l) q :: added). simpl in Hone.
      rewrite Happ, Hone, <- app_assoc. split; [done|].
      intros e Hin. apply elem_of_cons in Hin as [-> | Hin]; [|by apply Hdeps].
      by exists l, q.
Qed.

(** X3. During a call into the compiler the host only appends to the calls
    made into webpack, and what it appends are dependencies: each one is on
    a path ending in [.d.ts] that is a file on disk and has a record when
    the call ends, and is registered with the loader in flight. With no
    loader in flight nothing is appended. *)
Theorem run_service_dependencies {R : Type} (fs : FileSystem)
    (cur : option WebPackLoader) (fileNames : list string) (s : Service R)
    (h : Host) :
  exists added,
    events (run_service fs cur fileNames s h).2 = events h ++ added
    /\ (forall e, e ∈ added ->
          exists l path,
            cur = Some l
            /\ e = AddDependency (resourcePath l) path
            /\ isDefinition path = true
            /\ fileExists fs path = true
            /\ is_Some (files (run_service fs cur fileNames s h).2 !! path))
    /\ (cur = None -> added = []).
Proof.
  revert h. induction s as [r | | k IH | q k IH | q k IH]; intros h; simpl.
  - exists []. rewrite app_nil_r. split; [done|]. split; [|done].
    intros e He. by apply elem_of_nil in He.
  - exists []. rewrite app_nil_r. split; [done|]. split; [|done].
    intros e He. by apply elem_of_nil in He.
  - apply IH.
  - apply IH.
  - pose proof (getScriptSnapshot_events fs cur q h) as Hev.
    destruct (getScriptSnapshot fs cur q h) as [snapshot h1]. simpl in Hev.
    destruct (IH snapshot h1) as (added & Happ & Hdeps & Hnone).
    destruct Hev as [Hsame | (Hone & [l ->] & Hd & He & Hreg)].
    + exists added. rewrite Happ, Hsame. done.
    + exists (AddDependency (resourcePath l) q :: added). simpl in Hone.
      rewrite Happ, Hone, <- app_assoc. split; [done|]. split; [|done].
      intros e Hin. apply elem_of_cons in Hin as [-> | Hin]; [|by apply Hdeps].
      exists l, q. repeat split; try done.
      by apply run_service_keeps_on_disk.
Qed.

Lemma run_service_dependencies_witness :
  (exists added,
     events (run_service demo_fs (Some demo_loader_plain) []
               (demo_getEmitOutput false "/p/a.ts")
               (mkHost (<["/p/a.ts" := mkFile 1 "let x=1"]> ∅) [])).2
     = [] ++ added
     /\ forall e, e ∈ added ->
          exists path, e = AddDependency "/p/a.ts" path
                       /\ isDefinition path = true)
  /\ events (run_service demo_fs None [] (demo_getEmitOutput false "/p/a.ts")
               (mkHost (<["/p/a.ts" := mkFile 1 "let x=1"]> ∅) [])).2
     = [] ++ [].
Proof.
  split.
  - destruct (run_service_dependencies demo_fs (Some demo_loader_plain) []
                (demo_getEmitOutput false "/p/a.ts")
                (mkHost (<["/p/a.ts" := mkFile 1 "let x=1"]> ∅) []))
      as (added & Happ & Hdeps & _).
    exists added. split; [exact Happ|].
    intros e Hin. destruct (Hdeps e Hin) as (l & path & Hl & He & Hd & _).
    exists path. inversion Hl; subst l. split; [exact He | exact Hd].
  - destruct (run_service_dependencies demo_fs None []
                (demo_getEmitOutput false "/p/a.ts")
                (mkHost (<["/p/a.ts" := mkFile 1 "let x=1"]> ∅) []))
      as (added & Happ & _ & Hnone).
    rewrite (Hnone eq_refl) in Happ. exact Happ.
Defined.

(** X4. The script file names handed to the compiler are the configured
    file names and the paths of the registry, and no others. *)
Theorem getScriptFileNames_lists (fileNames : list string) (h : Host)
    (path : string) :
  path ∈ getScriptFileNames fileNames h
  <-> path ∈ fileNames \/ is_Some (files h !! path).
Proof.
  unfold getScriptFileNames. rewrite elem_of_app, list_elem_of_fmap.
  split.
  - intros [Hin | ([p f] & -> & Hin)]; [by left | right].
    apply elem_of_map_to_list in Hin. by eexists.
  - intros [Hin | [f Hf]]; [by left | right].
    exists (path, f). split; [done|]. by apply elem_of_map_to_list.
Qed.

Lemma getScriptFileNames_lists_witness :
  "/p/a.ts" ∈ getScriptFileNames ["/p/main.ts"] demo_host
  /\ "/p/main.ts" ∈ getScriptFileNames ["/p/main.ts"] demo_host.
Proof.
  split.
  - apply (proj2 (getScriptFileNames_lists ["/p/main.ts"] demo_host "/p/a.ts")).
    right. exists (mkFile 1 "let x=1"). reflexivity.
  - apply (proj2 (getScriptFileNames_lists ["/p/main.ts"] demo_host "/p/main.ts")).
    left. apply elem_of_cons. by left.
Defined.

(** X5. The update of a compile request always changes the version stamp
    the compiler reads for the target: from none to one, or from the stamp
    of a version to that of the next. *)
Theorem update_changes_stamp (files : FilesMap) (fileName content : string)
    (evs evs' : list HostEvent) :
  getScriptVersion fileName (mkHost (update_file fileName content files) evs)
  <> getScriptVersion fileName (mkHost files evs').
Proof.
  unfold getScriptVersion. simpl. rewrite update_file_lookup.
  destruct (files !! fileName) as [f|]; simpl; [|done].
  intros H. inversion H as [Hp]. apply (inj pretty) in Hp. lia.
Qed.

Lemma update_changes_stamp_witness :
  getScriptVersion "/p/a.ts"
    (mkHost (update_file "/p/a.ts" "let x=1" demo_files) [])
  <> getScriptVersion "/p/a.ts" (mkHost demo_files []).
Proof. apply update_changes_stamp. Defined.

(** X6. Asking twice is asking once: on an unchanged file system a second
    [getScriptSnapshot] for the same path gives the same answer as the
    first and leaves the registry as the first left it. *)
Theorem getScriptSnapshot_idempotent (fs : FileSystem)
    (cur cur' : option WebPackLoader) (fileName : string) (h : Host) :
  let r1 := getScriptSnapshot fs cur fileName h in
  let r2 := getScriptSnapshot fs cur' fileName r1.2 in
  r2.1 = r1.1 /\ files r2.2 = files r1.2.
Proof.
  unfold getScriptSnapshot. destruct (fileExists fs fileName) eqn:He; simpl.
  - destruct (files h !! fileName) as [f|] eqn:Hf; simpl.
    + by rewrite Hf.
    + destruct (readFileSync fs fileName) as [t|] eqn:Hr; simpl.
      * by rewrite lookup_insert_eq.
      * by rewrite Hf.
  - split; [done|]. apply delete_id, lookup_delete_eq.
Qed.

(** ** The watch-run plugin, further *)

Lemma refresh_dom (files : FilesMap) (fileName t : string) :
  dom (bump_version fileName (set_text fileName t files)) = dom files.
Proof. unfold bump_version, set_text. by rewrite !dom_alter_L. Qed.

(** X7. The watch-run handler neither adds nor removes a record, whether
    it reaches [cb()] or throws on the way. *)
Theorem watch_run_keeps_paths (fs : FileSystem) (keys : list string)
    (files : FilesMap) :
  dom (watch_files (watch_run fs keys files)) = dom files.
Proof.
  revert files. induction keys as [|k rest IH]; intros files; simpl; [done|].
  destruct (files !! k) as [file|]; [|apply IH].
  destruct (isDefinition k); [|apply IH].
  destruct (readFileSync fs k) as [t|]; [|done].
  by rewrite IH, refresh_dom.
Qed.

(** X8. When no path is named twice, as in the keys of an object, a
    changed declaration file with a record ends at exactly the next version
    with the text read from disk. *)
Theorem watch_run_increments (fs : FileSystem) (keys : list string) :
  forall (files files' : FilesMap) (path : string) (f : FileRecord),
    NoDup keys ->
    watch_run fs keys files = WatchDone files' ->
    path ∈ keys ->
    files !! path = Some f ->
    isDefinition path = true ->
    exists t, readFileSync fs path = Some t
              /\ files' !! path = Some (mkFile (version f + 1) t).
Proof.
  induction keys as [|k rest IH]; intros files files' path f Hnd Hrun Hin Hf Hd.
  - by apply elem_of_nil in Hin.
  - apply NoDup_cons in Hnd as [Hnotin Hnd]. simpl in Hrun.
    destruct (decide (path = k)) as [->|Hne].
    + rewrite Hf, Hd in Hrun.
      destruct (readFileSync fs k) as [t|] eqn:Hr; [|discriminate].
      exists t. split; [done|].
      pose proof (watch_run_refreshed fs rest _ files' Hrun k) as H.
      unfold refreshed in H. rewrite (refresh_lookup _ _ t _ Hf) in H.
      destruct H as (f' & Hf' & [(Hin' & _) | (_ & ->)]); done.
    + apply elem_of_cons in Hin as [? | Hin]; [done|].
      destruct (files !! k) as [file|] eqn:Hk; [|by eapply IH].
      destruct (isDefinition k); [|by eapply IH].
      destruct (readFileSync fs k) as [t|]; [|discriminate].
      eapply IH; try done. by rewrite refresh_other.
Qed.

Lemma watch_run_increments_witness :
  exists t,
    readFileSync demo_fs_edited "/p/lib.d.ts" = Some t
    /\ watch_files (watch_run demo_fs_edited ["/p/a.ts"; "/p/lib.d.ts"] demo_files)
       !! "/p/lib.d.ts" = Some (mkFile (0 + 1) t).
Proof.
  assert (exists files',
             watch_run demo_fs_edited ["/p/a.ts"; "/p/lib.d.ts"] demo_files
             = WatchDone files') as [files' Hrun] by (eexists; reflexivity).
  destruct (watch_run_increments demo_fs_edited ["/p/a.ts"; "/p/lib.d.ts"]
              demo_files files' "/p/lib.d.ts"
              (mkFile 0 "declare var y: number")) as (t & Ht & Hf).
  - apply NoDup_cons. split.
    + intros Hin. apply elem_of_cons in Hin as [Heq | Hin]; [discriminate Heq|].
      by apply elem_of_nil in Hin.
    + apply NoDup_cons. split; [apply not_elem_of_nil | apply NoDup_nil_2].
  - exact Hrun.
  - apply elem_of_cons. right. apply elem_of_cons. by left.
  - reflexivity.
  - reflexivity.
  - exists t. split; [exact Ht|]. rewrite Hrun. exact Hf.
Defined.

Lemma watch_run_threw_key (fs : FileSystem) (keys : list string) :
  forall (files files' : FilesMap),
    watch_run fs keys files = WatchThrew files' ->
    exists k, k ∈ keys /\ is_Some (files !! k) /\ isDefinition k = true
              /\ readFileSync fs k = None.
Proof.
  induction keys as [|k rest IH]; intros files files' Hrun; simpl in Hrun;
    [discriminate|].
  assert (Hrest : forall files0 : FilesMap,
             dom files0 = dom files ->
             watch_run fs rest files0 = WatchThrew files' ->
             exists k0, k0 ∈ k :: rest /\ is_Some (files !! k0)
                        /\ isDefinition k0 = true /\ readFileSync fs k0 = None).
  { intros files0 Hdom H0. destruct (IH _ _ H0) as (k0 & Hin & Hreg & Hd & Hr).
    exists k0. split; [apply elem_of_cons; by right|]. split; [|done].
    apply elem_of_dom. rewrite <- Hdom. by apply elem_of_dom. }
  destruct (files !! k) as [file|] eqn:Hk; [|by apply (Hrest files)].
  destruct (isDefinition k) eqn:Hd; [|by apply (Hrest files)].
  destruct (readFileSync fs k) as [t|] eqn:Hr.
  - eapply Hrest; [|exact Hrun]. apply refresh_dom.
  - exists k. split; [apply elem_of_cons; by left|]. by eauto.
Qed.

(** X9. The watch-run handler throws, and [cb()] is not reached, exactly
    when one of the changed paths is a declaration file with a record that
    cannot be read. *)
Theorem watch_run_throws (fs : FileSystem) (keys : list string)
    (files : FilesMap) :
  (exists files', watch_run fs keys files = WatchThrew files')
  <-> exists k, k ∈ keys /\ is_Some (files !! k) /\ isDefinition k = true
                /\ readFileSync fs k = None.
Proof.
  split.
  - intros [files' Hrun]. by eapply watch_run_threw_key.
  - intros (k & Hin & [f Hf] & Hd & Hr).
    destruct (watch_run fs keys files) as [files'|files'] eqn:Hrun;
      [|by eexists].
    pose proof (watch_run_refreshed fs keys files files' Hrun k) as H.
    unfold refreshed in H. rewrite Hf in H.
    destruct H as (f' & _ & [(_ & _ & Ht & _) | ([Hnin | Hnd] & _)]);
      congruence.
Qed.

Lemma watch_run_throws_witness :
  exists files',
    watch_run demo_fs_removed ["/p/a.ts"; "/p/lib.d.ts"] demo_files
    = WatchThrew files'.
Proof.
  apply (proj2 (watch_run_throws demo_fs_removed ["/p/a.ts"; "/p/lib.d.ts"]
                  demo_files)).
  exists "/p/lib.d.ts". split.
  - apply elem_of_cons. right. apply elem_of_cons. by left.
  - split; [by eexists | split; reflexivity].
Defined.

(** ** Declaration file names *)

Lemma substring_all (s : string) :
  String.substring 0 (String.length s) s = s.
Proof. induction s as [|c s IH]; simpl; [done | by rewrite IH]. Qed.

Lemma substring_append (pre suffix : string) :
  String.substring (String.length pre) (String.length suffix) (pre +:+ suffix)
  = suffix.
Proof.
  induction pre as [|c pre IH]; simpl; [apply substring_all | exact IH].
Qed.

Lemma length_append (s1 s2 : string) :
  String.length (s1 +:+ s2) = (String.length s1 + String.length s2)%nat.
Proof. induction s1 as [|c s1 IH]; simpl; [done | by rewrite IH]. Qed.

Lemma substring_split (s : string) :
  forall k : nat, (k <= String.length s)%nat ->
    s = String.substring 0 k s +:+ String.substring k (String.length s - k) s.
Proof.
  induction s as [|c s IH]; intros k Hk; simpl in *.
  - by destruct k.
  - destruct k as [|k]; simpl.
    + by rewrite substring_all.
    + change (String c s = String c (String.substring 0 k s
                  +:+ String.substring k (String.length s - k) s)).
      f_equal. apply IH. lia.
Qed.

(** X10. [isDefinition] holds exactly of the names that end in [.d.ts]:
    those made of any text, also none, followed by [.d.ts]. *)
Theorem isDefinition_suffix (fileName : string) :
  isDefinition fileName = true <-> exists pre, fileName = pre +:+ ".d.ts".
Proof.
  unfold isDefinition, ends_with.
  rewrite andb_true_iff, Nat.leb_le, String.eqb_eq.
  set (n := String.length fileName). set (m := String.length ".d.ts"). split.
  - intros [Hle Hsub]. exists (String.substring 0 (n - m) fileName).
    pose proof (substring_split fileName (n - m)) as H. fold n in H.
    replace (n - (n - m))%nat with m in H by lia.
    rewrite Hsub in H. apply H. lia.
  - intros [pre ->]. subst n. rewrite length_append. fold m. split; [lia|].
    replace (String.length pre + m - m)%nat with (String.length pre) by lia.
    apply (substring_append pre ".d.ts").
Qed.

Lemma isDefinition_suffix_witness :
  isDefinition "/p/lib.d.ts" = true
  /\ ~ exists pre, "/p/a.ts" = pre +:+ ".d.ts".
Proof.
  split.
  - apply (proj2 (isDefinition_suffix "/p/lib.d.ts")). by exists "/p/lib".
  - intros H. apply (proj2 (isDefinition_suffix "/p/a.ts")) in H.
    discriminate H.
Defined.

(** ** Sessions and compile requests, further *)

Lemma getLoaderInstance_failed `{RT : Runtime} (loader : WebPackLoader)
    (fs : FileSystem) (w : World) :
  (getLoaderInstance loader fs w).1 = None ->
  getLoaderInstance loader fs w = (None, w).
Proof.
  unfold getLoaderInstance.
  destruct (parseQuery (query loader)) as [options|]; [|done].
  destruct (loaderInstances w !! instance_id loader); [done|].
  by destruct (createService loader options fs) as [[instance emitted]|].
Qed.

Lemma getLoaderInstance_stored `{RT : Runtime} (loader : WebPackLoader)
    (fs : FileSystem) (w w1 : World) (instance : LoaderInstance) :
  getLoaderInstance loader fs w = (Some instance, w1) ->
  loaderInstances w1 !! instance_id loader = Some instance
  /\ currentLoader w1 = currentLoader w
  /\ match loaderInstances w !! instance_id loader with
     | Some instance0 => instance = instance0 /\ w1 = w
     | None =>
         inst_files instance = ∅
         /\ inst_loader instance = loader
         /\ loaderInstances w1
            = <[instance_id loader := instance]> (loaderInstances w)
         /\ hostEvents w1
            = hostEvents w
              ++ map (fun e => EmitError (resourcePath loader) (formatDiagnostic e))
                     (config_errors (inst_config instance))
     end.
Proof.
  unfold getLoaderInstance.
  destruct (parseQuery (query loader)) as [options|]; [|discriminate].
  destruct (loaderInstances w !! instance_id loader) as [i0|] eqn:Hw.
  - intros H. inversion H; subst. by rewrite Hw.
  - unfold createService.
    destruct (loadConfig loader options fs) as [config|]; [|discriminate].
    intros H. inversion H; subst. simpl. by rewrite lookup_insert_eq.
Qed.

(** X11. A session, once stored, is never removed, and it keeps the
    configuration and the loader it was created with: every operation
    leaves a session under every id that had one. *)
Theorem sessions_persist `{RT : Runtime} (op : Operation) (w : World)
    (id : string) (instance : LoaderInstance) :
  loaderInstances w !! id = Some instance ->
  exists instance',
    loaderInstances (perform op w).2 !! id = Some instance'
    /\ inst_config instance' = inst_config instance
    /\ inst_loader instance' = inst_loader instance.
Proof.
  intros Hi. destruct (decide (id = session_of op)) as [->|Hne];
    [|exists instance; by rewrite perform_frame].
  destruct op as [this content fs | sid fs keys | sid fs c]; simpl in *.
  - unfold loader, getLoaderInstance. rewrite Hi.
    destruct (parseQuery (query this)) as [options|]; [|by exists instance].
    unfold loader_emit.
    destruct (run_service _ _ _ _ _) as [[[output service']|] h'];
      simpl; rewrite lookup_insert_eq; by eexists.
  - unfold watch_run_plugin. rewrite Hi.
    destruct (watch_run fs keys (inst_files instance)); simpl;
      rewrite lookup_insert_eq; by eexists.
  - unfold emit_plugin. rewrite Hi.
    destruct (run_service _ _ _ _ _) as [[[[sem syn] service']|] h'];
      simpl; rewrite lookup_insert_eq; by eexists.
Qed.

Lemma sessions_persist_witness :
  exists instance',
    loaderInstances
      (perform (RT := demo_runtime)
         (OpCompile demo_loader_dts "declare var y: number" demo_fs) demo_world).2
      !! "/p" = Some instance'
    /\ inst_loader instance' = demo_loader_plain.
Proof.
  assert (exists instance,
             loaderInstances demo_world !! "/p" = Some instance
             /\ inst_loader instance = demo_loader_plain)
    as (instance & Hi & Hl) by (eexists; split; reflexivity).
  destruct (sessions_persist (RT := demo_runtime)
              (OpCompile demo_loader_dts "declare var y: number" demo_fs)
              demo_world "/p" instance Hi) as (instance' & Hi' & _ & Hl').
  exists instance'. split; [exact Hi'|]. rewrite Hl'. exact Hl.
Defined.

(** X12. [currentLoader] after a compile request: it is cleared whenever
    the service returned, whatever the request then does with the output;
    it is left pointing at the request's loader when the service threw;
    and a request that could not get its session throws without changing
    the module state. *)
Theorem currentLoader_after_request `{RT : Runtime} (this : WebPackLoader)
    (content : string) (fs : FileSystem) (w : World) :
  (is_Some (reported_output this content fs w) ->
     currentLoader (loader this content fs w).2 = None)
  /\ (is_Some (getLoaderInstance this fs w).1 ->
      reported_output this content fs w = None ->
      (loader this content fs w).1 = Threw
      /\ currentLoader (loader this content fs w).2 = Some this)
  /\ ((getLoaderInstance this fs w).1 = None ->
      loader this content fs w = (Threw, w)).
Proof.
  split; [|split].
  - unfold reported_output, loader.
    destruct (getLoaderInstance this fs w) as [[instance|] w1];
      [|by intros [? ?]].
    destruct (loader_emit this content fs instance (hostEvents w1))
      as [[[output|] instance'] evs]; [done | by intros [? ?]].
  - unfold reported_output, loader.
    destruct (getLoaderInstance this fs w) as [[instance|] w1];
      [|by intros [? ?]].
    destruct (loader_emit this content fs instance (hostEvents w1))
      as [[[output|] instance'] evs]; done.
  - intros H. unfold loader. by rewrite (getLoaderInstance_failed _ _ _ H).
Qed.

Lemma currentLoader_after_request_witness :
  currentLoader
    (loader (RT := demo_runtime) demo_loader_dts "declare var y: number"
       demo_fs empty_world).2 = None
  /\ currentLoader
       (loader (RT := demo_runtime) demo_loader_dts "declare var y: number"
          demo_fs_removed empty_world).2 = Some demo_loader_dts.
Proof.
  split.
  - apply (proj1 (currentLoader_after_request (RT := demo_runtime)
                    demo_loader_dts "declare var y: number" demo_fs empty_world)).
    by eexists.
  - apply (proj1 (proj2 (currentLoader_after_request (RT := demo_runtime)
                           demo_loader_dts "declare var y: number"
                           demo_fs_removed empty_world))).
    + by eexists.
    + reflexivity.
Defined.

(** X13. The calls a compile request makes into webpack, once it has its
    session: the configuration errors, formatted, when the session is
    created by this request and none when it existed; then [cacheable()];
    then only dependencies of the request's resource on declaration files
    that are on disk. *)
Theorem request_events `{RT : Runtime} (this : WebPackLoader)
    (content : string) (fs : FileSystem) (w : World) (instance : LoaderInstance)
    (w1 : World) :
  getLoaderInstance this fs w = (Some instance, w1) ->
  exists deps,
    hostEvents (loader this content fs w).2
    = hostEvents w
      ++ (match loaderInstances w !! instance_id this with
          | Some _ => []
          | None =>
              map (fun e => EmitError (resourcePath this) (formatDiagnostic e))
                  (config_errors (inst_config instance))
          end)
      ++ Cacheable (resourcePath this) :: deps
    /\ forall e, e ∈ deps ->
         exists path,
           e = AddDependency (resourcePath this) path
           /\ isDefinition path = true
           /\ fileExists fs path = true.
Proof.
  intros Hget. destruct (getLoaderInstance_stored _ _ _ _ _ Hget) as (_ & _ & Hw).
  assert (Hev : hostEvents w1
                = hostEvents w
                  ++ match loaderInstances w !! instance_id this with
                     | Some _ => []
                     | None =>
                         map (fun e => EmitError (resourcePath this)
                                         (formatDiagnostic e))
                             (config_errors (inst_config instance))
                     end).
  { destruct (loaderInstances w !! instance_id this).
    - destruct Hw as [_ ->]. by rewrite app_nil_r.
    - by destruct Hw as (_ & _ & _ & ->). }
  unfold loader. rewrite Hget. unfold loader_emit.
  destruct (run_service_appends fs (Some this)
              (config_fileNames (inst_config instance))
              (getEmitOutput (service instance) (resourcePath this))
              (request_host this content instance (hostEvents w1)))
    as (added & Happ & Hdeps).
  exists added. split.
  - destruct (run_service _ _ _ _ _) as [[[output service']|] h'];
      simpl in *; rewrite Happ, Hev, <- !app_assoc; done.
  - intros e Hin. destruct (Hdeps e Hin) as (l & path & Hl & -> & Hd & He).
    inversion Hl; subst. by exists path.
Qed.

Lemma request_events_witness :
  exists deps,
    hostEvents
      (loader (RT := demo_runtime) demo_loader_plain "let x=2" demo_fs
         demo_world).2
    = hostEvents demo_world ++ [] ++ Cacheable "/p/a.ts" :: deps
    /\ forall e, e ∈ deps ->
         exists path, e = AddDependency "/p/a.ts" path
                      /\ isDefinition path = true.
Proof.
  assert (exists instance,
             getLoaderInstance (RT := demo_runtime) demo_loader_plain demo_fs
               demo_world = (Some instance, demo_world))
    as [instance Hget] by (eexists; reflexivity).
  destruct (request_events (RT := demo_runtime) demo_loader_plain "let x=2"
              demo_fs demo_world instance demo_world Hget)
    as (deps & Hev & Hdeps).
  exists deps. split.
  - exact Hev.
  - intros e Hin. destruct (Hdeps e Hin) as (path & He & Hd & _).
    exists path. split; [exact He | exact Hd].
Defined.

(** X14. During a compile request the compiler reads the request's text
    for the build target, not the file's: while the target is a file on
    disk its snapshot is the text webpack handed over. When the target is
    not a file on disk the compiler gets no snapshot and the record just
    updated is deleted. *)
Theorem request_text_wins `{RT : Runtime} (this : WebPackLoader)
    (content : string) (instance : LoaderInstance) (evs : list HostEvent)
    (fs : FileSystem) (cur : option WebPackLoader) :
  let r := getScriptSnapshot fs cur (resourcePath this)
             (request_host this content instance evs) in
  (fileExists fs (resourcePath this) = true -> r.1 = Some content)
  /\ (fileExists fs (resourcePath this) = false ->
      r.1 = None /\ files r.2 !! resourcePath this = None).
Proof.
  simpl. split; intros He.
  - unfold getScriptSnapshot, request_host. rewrite He. simpl.
    by rewrite update_file_lookup.
  - rewrite getScriptSnapshot_absent by done. simpl.
    split; [done | apply lookup_delete_eq].
Qed.

Lemma request_text_wins_witness :
  (getScriptSnapshot demo_fs_edited None "/p/lib.d.ts"
     (request_host (RT := demo_runtime) demo_loader_dts "declare var z: boolean"
        (mkInstance (RT := demo_runtime) demo_files false (mkConfig [] [])
           demo_loader_plain) [])).1
  = Some "declare var z: boolean"
  /\ (getScriptSnapshot demo_fs_removed None "/p/lib.d.ts"
        (request_host (RT := demo_runtime) demo_loader_dts
           "declare var z: boolean"
           (mkInstance (RT := demo_runtime) demo_files false (mkConfig [] [])
              demo_loader_plain) [])).1
     = None.
Proof.
  split.
  - apply (proj1 (request_text_wins (RT := demo_runtime) demo_loader_dts
                    "declare var z: boolean"
                    (mkInstance (RT := demo_runtime) demo_files false
                       (mkConfig [] []) demo_loader_plain)
                    [] demo_fs_edited None)).
    reflexivity.
  - apply (proj2 (request_text_wins (RT := demo_runtime) demo_loader_dts
                    "declare var z: boolean"
                    (mkInstance (RT := demo_runtime) demo_files false
                       (mkConfig [] []) demo_loader_plain)
                    [] demo_fs_removed None)).
    reflexivity.
Defined.

(** X15. After a compile request for a target that is a file on disk, the
    session holds for the target exactly the request's text at the version
    after the one it had (1 for a new record), whatever the compiler asked
    for and whether it returned or threw. *)
Theorem request_leaves_record `{RT : Runtime} (this : WebPackLoader)
    (content : string) (fs : FileSystem) (w : World) (instance : LoaderInstance)
    (w1 : World) :
  getLoaderInstance this fs w = (Some instance, w1) ->
  fileExists fs (resourcePath this) = true ->
  exists instance',
    loaderInstances (loader this content fs w).2 !! instance_id this
    = Some instance'
    /\ inst_files instance' !! resourcePath this
       = Some (mkFile (match inst_files instance !! resourcePath this with
                       | Some f => version f
                       | None => 0
                       end + 1) content).
Proof.
  intros Hget He. unfold loader. rewrite Hget. unfold loader_emit.
  pose proof (run_service_keeps fs (Some this)
                (config_fileNames (inst_config instance)) (resourcePath this)
                _ (getEmitOutput (service instance) (resourcePath this))
                (request_host this content instance (hostEvents w1))
                (or_introl (update_file_lookup (inst_files instance)
                              (resourcePath this) content))) as Hk.
  destruct (run_service _ _ _ _ _) as [[[output service']|] h'];
    simpl in *; rewrite lookup_insert_eq; eexists; (split; [done|]); simpl;
    (destruct Hk as [Hk | [_ Hk]]; [exact Hk | congruence]).
Qed.

Lemma request_leaves_record_witness :
  exists instance',
    loaderInstances
      (loader (RT := demo_runtime) demo_loader_plain "let x=2" demo_fs
         demo_world).2 !! "/p" = Some instance'
    /\ inst_files instance' !! "/p/a.ts" = Some (mkFile (1 + 1) "let x=2").
Proof.
  assert (exists instance,
             getLoaderInstance (RT := demo_runtime) demo_loader_plain demo_fs
               demo_world = (Some instance, demo_world)
             /\ inst_files instance !! "/p/a.ts" = Some (mkFile 1 "let x=1"))
    as (instance & Hget & Hf) by (eexists; split; reflexivity).
  destruct (request_leaves_record (RT := demo_runtime) demo_loader_plain
              "let x=2" demo_fs demo_world instance demo_world Hget eq_refl)
    as (instance' & Hi' & Hf').
  exists instance'. split; [exact Hi'|].
  change (inst_files instance' !! "/p/a.ts"
          = Some (mkFile (match inst_files instance !! "/p/a.ts" with
                          | Some f => version f
                          | None => 0
                          end + 1) "let x=2")) in Hf'.
  rewrite Hf in Hf'. exact Hf'.
Defined.

(** X16. A compile request throws instead of calling back exactly when it
    got no output from the service (no session, or the service threw), or
    the service reported emission as not skipped and either the output
    file the request reads is missing or, with source maps, the text of
    the first output file does not parse. *)
Theorem loader_throws `{RT : Runtime} (this : WebPackLoader) (content : string)
    (fs : FileSystem) (w : World) :
  (loader this content fs w).1 = Threw
  <-> reported_output this content fs w = None
      \/ exists output,
           reported_output this content fs w = Some output
           /\ emitSkipped output = false
           /\ (outputFiles output !! (if sourceMap this then 1 else 0)%nat = None
               \/ (sourceMap this = true
                   /\ exists map_file,
                        outputFiles output !! 0%nat = Some map_file
                        /\ JSON_parse (output_text map_file) = None)).
Proof.
  rewrite loader_outcome.
  destruct (reported_output this content fs w) as [output|]; [|by split; auto].
  unfold loader_callback. split.
  - intros H. right. exists output. split; [done|].
    destruct (emitSkipped output); [discriminate|]. split; [done|].
    destruct (outputFiles output !! (if sourceMap this then 1 else 0)%nat)
      as [out|] eqn:Hout; [|by left].
    destruct (sourceMap this) eqn:Hsm; [|discriminate].
    destruct (outputFiles output !! 0%nat) as [map_file|] eqn:H0.
    + destruct (JSON_parse (output_text map_file)) eqn:Hp; [discriminate|].
      right. split; [done|]. by exists map_file.
    + apply lookup_ge_None in H0. apply lookup_lt_Some in Hout. lia.
  - intros [H | (o & Ho & Hs & Hcase)]; [discriminate|].
    inversion Ho; subst o. rewrite Hs.
    destruct Hcase as [Hnone | (Hsm & map_file & H0 & Hp)].
    + by rewrite Hnone.
    + rewrite Hsm in *.
      destruct (outputFiles output !! 1%nat); [|done]. by rewrite H0, Hp.
Qed.

Lemma loader_throws_witness :
  (loader (RT := demo_runtime) demo_loader_dts "declare var y: number" demo_fs
     empty_world).1 = Threw.
Proof.
  apply (proj2 (loader_throws (RT := demo_runtime) demo_loader_dts
                  "declare var y: number" demo_fs empty_world)).
  right. exists (mkEmitOutput [] false).
  split; [reflexivity|]. split; [reflexivity|]. left. reflexivity.
Defined.

(** X17. A compile request changes no record but its target's: a path
    other than the target that has a record in the session before and
    after the request has the same record, text and version. *)
Theorem request_touches_target_only `{RT : Runtime} (this : WebPackLoader)
    (content : string) (fs : FileSystem) (w : World)
    (instance instance' : LoaderInstance) (w1 : World) (path : string)
    (f f' : FileRecord) :
  getLoaderInstance this fs w = (Some instance, w1) ->
  path <> resourcePath this ->
  inst_files instance !! path = Some f ->
  loaderInstances (loader this content fs w).2 !! instance_id this
  = Some instance' ->
  inst_files instance' !! path = Some f' ->
  f' = f.
Proof.
  intros Hget Hne Hf Hi' Hf'. unfold loader in Hi'. rewrite Hget in Hi'.
  unfold loader_emit in Hi'.
  assert (Hstart : files (request_host this content instance (hostEvents w1))
                   !! path = Some f).
  { unfold request_host. simpl. by rewrite update_file_other. }
  pose proof (run_service_keeps fs (Some this)
                (config_fileNames (inst_config instance)) path f
                (getEmitOutput (service instance) (resourcePath this))
                (request_host this content instance (hostEvents w1))
                (or_introl Hstart)) as Hk.
  destruct (run_service _ _ _ _ _) as [[[output service']|] h'];
    simpl in Hi', Hk; rewrite lookup_insert_eq in Hi';
    inversion Hi'; subst instance'; simpl in Hf';
    (destruct Hk as [Hk | [Hk _]]; congruence).
Qed.

Lemma request_touches_target_only_witness :
  exists instance' f',
    loaderInstances
      (loader (RT := demo_runtime) demo_loader_plain "let x=2" demo_fs_edited
         demo_world).2 !! "/p" = Some instance'
    /\ inst_files instance' !! "/p/lib.d.ts" = Some f'
    /\ f' = mkFile 0 "declare var y: number".
Proof.
  assert (exists instance,
             getLoaderInstance (RT := demo_runtime) demo_loader_plain
               demo_fs_edited demo_world = (Some instance, demo_world)
             /\ inst_files instance !! "/p/lib.d.ts"
                = Some (mkFile 0 "declare var y: number"))
    as (instance & Hget & Hf) by (eexists; split; reflexivity).
  assert (exists instance' f',
             loaderInstances
               (loader (RT := demo_runtime) demo_loader_plain "let x=2"
                  demo_fs_edited demo_world).2 !! "/p" = Some instance'
             /\ inst_files instance' !! "/p/lib.d.ts" = Some f')
    as (instance' & f' & Hi' & Hf') by (eexists _, _; split; reflexivity).
  exists instance', f'. split; [exact Hi'|]. split; [exact Hf'|].
  apply (request_touches_target_only (RT := demo_runtime) demo_loader_plain
           "let x=2" demo_fs_edited demo_world instance instance' demo_world
           "/p/lib.d.ts" (mkFile 0 "declare var y: number") f' Hget);
    [discriminate | exact Hf | exact Hi' | exact Hf'].
Defined.

(** ** The configuration file *)

Lemma get_prop_key (key : string) (obj : JsObject) (v : JsValue) :
  get_prop key obj = Some v -> key ∈ obj.*1.
Proof.
  induction obj as [|[k x] rest IH]; simpl; [done|].
  destruct (String.eqb key k) eqn:E.
  - apply String.eqb_eq in E. subst. intros _. apply elem_of_cons. by left.
  - intros H. apply elem_of_cons. right. by apply IH.
Qed.

Lemma get_assign_keys (key : string) (props : JsObject) :
  forall (keys : list string) (target : JsObject),
    get_prop key
      (foldl (fun t k => match get_prop k props with
                         | Some v => set_prop k v t
                         | None => t
                         end) target keys)
    = match get_prop key props with
      | Some v => if bool_decide (key ∈ keys) then Some v else get_prop key target
      | None => get_prop key target
      end.
Proof.
  induction keys as [|k keys IH]; intros target; cbn [foldl].
  - destruct (get_prop key props); [|done].
    rewrite bool_decide_eq_false_2; [done | apply not_elem_of_nil].
  - rewrite IH. destruct (get_prop key props) as [v|] eqn:Hkey.
    + destruct (decide (key = k)) as [->|Hne].
      * rewrite Hkey, get_set_prop, String.eqb_refl.
        rewrite (bool_decide_eq_true_2 (k ∈ k :: keys))
          by (apply elem_of_cons; by left).
        by destruct (bool_decide (k ∈ keys)).
      * assert (Hk : get_prop key
                       (match get_prop k props with
                        | Some v0 => set_prop k v0 target
                        | None => target
                        end) = get_prop key target).
        { destruct (get_prop k props); [|done]. rewrite get_set_prop.
          apply String.eqb_neq in Hne. by rewrite Hne. }
        rewrite Hk. destruct (bool_decide (key ∈ keys)) eqn:Hin.
        -- apply bool_decide_eq_true in Hin.
           rewrite bool_decide_eq_true_2; [done|]. apply elem_of_cons. by right.
        -- apply bool_decide_eq_false in Hin.
           rewrite bool_decide_eq_false_2; [done|].
           rewrite elem_of_cons. tauto.
    + destruct (get_prop k props) as [v0|] eqn:Hk; [|done].
      rewrite get_set_prop. destruct (String.eqb key k) eqn:E; [|done].
      apply String.eqb_eq in E. congruence.
Qed.

(** A round of [extend]: the source's property wins, the target's stays
    where the source has none. *)
Lemma get_assign_own (key : string) (target : JsObject) (source : JsValue) :
  get_prop key (assign_own target source)
  = match get_prop key (own_properties source) with
    | Some v => Some v
    | None => get_prop key target
    end.
Proof.
  unfold assign_own. rewrite get_assign_keys.
  destruct (get_prop key (own_properties source)) as [v|] eqn:Hk; [|done].
  rewrite bool_decide_eq_true_2; [done|]. by eapply get_prop_key.
Qed.

Lemma get_extend_snoc (key : string) (sources : list (option JsValue))
    (source : option JsValue) :
  get_prop key (extend (sources ++ [source]))
  = match get_own key source with
    | Some v => Some v
    | None => get_prop key (extend sources)
    end.
Proof.
  unfold extend. rewrite foldl_app. simpl.
  destruct source as [v|]; simpl; [apply get_assign_own | done].
Qed.

(** The configuration [readConfigFile] has before it merges the compiler
    options. *)
Lemma readConfigFile_inv `{NL : NodeLib} (fs : FileSystem)
    (configFile : option string) (loader : WebPackLoader)
    (additionalOptions : option JsValue) (config : JsObject) :
  readConfigFile fs configFile loader additionalOptions = Some config ->
  exists loaded,
    config
    = set_prop "compilerOptions"
        (JObject
           (extend [Some (JObject default_compilerOptions);
                    get_prop "compilerOptions" loaded;
                    additionalOptions;
                    Some (JObject [("sourceMap", JBool (sourceMap loader))])]))
        loaded
    /\ match configFile with
       | None | Some "" =>
           loaded = [("files", JArray []); ("compilerOptions", JObject [])]
       | Some name =>
           exists tsconfig,
             loadConfigFile fs name = Some tsconfig
             /\ tsconfig <> JNull
             /\ forall key, key <> "files" ->
                   get_prop key loaded
                   = match get_prop key (own_properties tsconfig) with
                     | Some v => Some v
                     | None =>
                         get_prop key
                           [("files", JArray []); ("compilerOptions", JObject [])]
                     end
       end.
Proof.
  unfold readConfigFile.
  set (config0 := [("files", JArray []); ("compilerOptions", JObject [])]).
  assert (Hext : forall tsconfig key,
             get_prop key (extend [Some (JObject config0); Some tsconfig])
             = match get_prop key (own_properties tsconfig) with
               | Some v => Some v
               | None => get_prop key config0
               end).
  { intros tsconfig key.
    change [Some (JObject config0); Some tsconfig]
      with ([Some (JObject config0)] ++ [Some tsconfig]).
    rewrite get_extend_snoc. simpl.
    destruct (get_prop key (own_properties tsconfig)); [done|].
    unfold extend. by simpl. }
  destruct configFile as [name|];
    [|intros H; injection H as <-; exists config0; split; reflexivity].
  destruct name as [|c name];
    [intros H; injection H as <-; exists config0; split; reflexivity|].
  set (file := String c name).
  destruct (loadConfigFile fs file) as [tsconfig|] eqn:Hload; [|discriminate].
  destruct (read_property "files" tsconfig) as [files_|] eqn:Hfiles;
    [|discriminate].
  assert (Hnn : tsconfig <> JNull) by (intros ->; discriminate).
  destruct files_ as [[| | | | items |]|];
    try (intros H; injection H as <-;
         exists (extend [Some (JObject config0); Some tsconfig]);
         split; [reflexivity|];
         exists tsconfig; split; [done|]; split; [done|];
         intros key _; apply Hext).
  destruct (get_prop "files" (extend [Some (JObject config0); Some tsconfig]))
    as [[| | | | files_ |]|]; try discriminate.
  destruct (resolve_files (dirname file) files_) as [files'|]; [|discriminate].
  intros H; injection H as <-.
  exists (set_prop "files" (JArray files')
            (extend [Some (JObject config0); Some tsconfig])).
  split; [reflexivity|].
  exists tsconfig. split; [done|]. split; [done|].
  intros key Hne. rewrite get_set_prop.
  apply String.eqb_neq in Hne. rewrite Hne. apply Hext.
Qed.

(** X18. Whatever the configuration file and the extra options say, the
    compiler options [readConfigFile] returns carry the [sourceMap] flag of
    the request. *)
Theorem readConfigFile_forces_sourceMap `{NL : NodeLib} (fs : FileSystem)
    (configFile : option string) (loader : WebPackLoader)
    (additionalOptions : option JsValue) (config : JsObject) :
  readConfigFile fs configFile loader additionalOptions = Some config ->
  exists compilerOptions,
    get_prop "compilerOptions" config = Some (JObject compilerOptions)
    /\ get_prop "sourceMap" compilerOptions = Some (JBool (sourceMap loader)).
Proof.
  intros H. destruct (readConfigFile_inv _ _ _ _ _ H) as (loaded & -> & _).
  eexists. split; [by rewrite get_set_prop|].
  match goal with
  | |- get_prop _ (extend [?a; ?b; ?c; ?d]) = _ =>
      change [a; b; c; d] with ([a; b; c] ++ [d])
  end.
  by rewrite get_extend_snoc.
Qed.

Lemma readConfigFile_forces_sourceMap_witness :
  exists config compilerOptions,
    readConfigFile (NL := demo_node) demo_fs_config (Some "/p/tsconfig.json")
      demo_loader (Some (JObject [("sourceMap", JBool false)])) = Some config
    /\ get_prop "compilerOptions" config = Some (JObject compilerOptions)
    /\ get_prop "sourceMap" compilerOptions = Some (JBool true).
Proof.
  assert (exists config,
             readConfigFile (NL := demo_node) demo_fs_config
               (Some "/p/tsconfig.json") demo_loader
               (Some (JObject [("sourceMap", JBool false)])) = Some config)
    as [config Hread] by (eexists; reflexivity).
  destruct (readConfigFile_forces_sourceMap (NL := demo_node) _ _ _ _ _ Hread)
    as (compilerOptions & Hc & Hs).
  exists config, compilerOptions.
  split; [exact Hread | split; [exact Hc | exact Hs]].
Defined.

(** X19. The order of precedence of the compiler options: for every key
    but [sourceMap], the value of the extra options if they have one, else
    the value of the configuration file's [compilerOptions] if it has one,
    else the default ([target] is [es5], [module] is [commonjs]). *)
Theorem readConfigFile_precedence `{NL : NodeLib} (fs : FileSystem)
    (configFile : option string) (loader : WebPackLoader)
    (additionalOptions : option JsValue) (config : JsObject) :
  readConfigFile fs configFile loader additionalOptions = Some config ->
  exists compilerOptions,
    get_prop "compilerOptions" config = Some (JObject compilerOptions)
    /\ forall key, key <> "sourceMap" ->
         get_prop key compilerOptions
         = match get_own key additionalOptions with
           | Some v => Some v
           | None =>
               match get_own key (file_compilerOptions fs configFile) with
               | Some v => Some v
               | None => get_prop key default_compilerOptions
               end
           end.
Proof.
  intros H. destruct (readConfigFile_inv _ _ _ _ _ H) as (loaded & -> & Hl).
  eexists. split; [by rewrite get_set_prop|].
  intros key Hne.
  match goal with
  | |- get_prop _ (extend [?a; ?b; ?c; ?d]) = _ =>
      change [a; b; c; d] with ([a; b; c] ++ [d]);
      rewrite get_extend_snoc;
      change [a; b; c] with ([a; b] ++ [c]);
      rewrite get_extend_snoc;
      change [a; b] with ([a] ++ [b]);
      rewrite get_extend_snoc
  end.
  assert (Hsm : get_own key
                  (Some (JObject [("sourceMap", JBool (sourceMap loader))]))
                = None).
  { simpl. apply String.eqb_neq in Hne. by rewrite Hne. }
  rewrite Hsm. destruct (get_own key additionalOptions); [done|].
  assert (Hfile : get_own key (get_prop "compilerOptions" loaded)
                  = get_own key (file_compilerOptions fs configFile)).
  { unfold file_compilerOptions.
    destruct configFile as [[|c name]|]; try (by rewrite Hl).
    destruct Hl as (tsconfig & Hload & _ & Hkeys).
    rewrite Hload, Hkeys by done.
    by destruct (get_prop "compilerOptions" (own_properties tsconfig)). }
  rewrite Hfile.
  destruct (get_own key (file_compilerOptions fs configFile)); [done|].
  unfold extend. by simpl.
Qed.

Lemma readConfigFile_precedence_witness :
  exists config compilerOptions,
    readConfigFile (NL := demo_node) demo_fs_config (Some "/p/tsconfig.json")
      demo_loader (Some (JObject [("module", JString "amd")])) = Some config
    /\ get_prop "compilerOptions" config = Some (JObject compilerOptions)
    /\ get_prop "module" compilerOptions = Some (JString "amd")
    /\ get_prop "target" compilerOptions = Some (JString "es6").
Proof.
  assert (exists config,
             readConfigFile (NL := demo_node) demo_fs_config
               (Some "/p/tsconfig.json") demo_loader
               (Some (JObject [("module", JString "amd")])) = Some config)
    as [config Hread] by (eexists; reflexivity).
  destruct (readConfigFile_precedence (NL := demo_node) _ _ _ _ _ Hread)
    as (compilerOptions & Hc & Hkeys).
  exists config, compilerOptions.
  split; [exact Hread|]. split; [exact Hc|]. split.
  - apply (Hkeys "module"). discriminate.
  - apply (Hkeys "target"). discriminate.
Defined.

Lemma resolve_files_strings `{NL : NodeLib} (configDir : string)
    (names : list string) :
  resolve_files configDir (map JString names)
  = Some (map JString (map (resolve configDir) names)).
Proof.
  induction names as [|n names IH]; simpl; [done | by rewrite IH].
Qed.

Lemma resolve_files_None `{NL : NodeLib} (configDir : string)
    (items : list JsValue) :
  resolve_files configDir items = None
  <-> exists item, item ∈ items /\ forall s, item <> JString s.
Proof.
  induction items as [|item items IH]; simpl.
  - split; [done | intros (i & Hi & _); by apply elem_of_nil in Hi].
  - destruct item as [| b | n | s | l | o];
      try (split; [intros _; eexists; split;
                     [apply elem_of_cons; by left | done] | done]).
    destruct (resolve_files configDir items) as [rest|].
    + split; [done|]. intros (i & Hi & Hs).
      apply elem_of_cons in Hi as [-> | Hi]; [by destruct (Hs s)|].
      pose proof (proj2 IH (ex_intro _ i (conj Hi Hs))). discriminate.
    + split; [|done]. intros _. destruct (proj1 IH eq_refl) as (i & Hi & Hs).
      exists i. split; [apply elem_of_cons; by right | done].
Qed.

Lemma get_extend_config (tsconfig : JsValue) (key : string) :
  get_prop key
    (extend [Some (JObject [("files", JArray []); ("compilerOptions", JObject [])]);
             Some tsconfig])
  = match get_prop key (own_properties tsconfig) with
    | Some v => Some v
    | None =>
        get_prop key [("files", JArray []); ("compilerOptions", JObject [])]
    end.
Proof.
  match goal with
  | |- get_prop _ (extend [?a; ?b]) = _ =>
      change [a; b] with ([a] ++ [b])
  end.
  rewrite get_extend_snoc. simpl.
  destruct (get_prop key (own_properties tsconfig)); [done|].
  unfold extend. by simpl.
Qed.

(** X20. The [files] of a configuration file, when they are a list of
    strings, come back resolved against the directory of the configuration
    file, one for one and in order. *)
Theorem readConfigFile_resolves_files `{NL : NodeLib} (fs : FileSystem)
    (name : string) (loader : WebPackLoader)
    (additionalOptions : option JsValue) (props : JsObject)
    (names : list string) :
  name <> "" ->
  loadConfigFile fs name = Some (JObject props) ->
  get_prop "files" props = Some (JArray (map JString names)) ->
  exists config,
    readConfigFile fs (Some name) loader additionalOptions = Some config
    /\ get_prop "files" config
       = Some (JArray (map JString (map (resolve (dirname name)) names))).
Proof.
  intros Hne Hload Hfiles. unfold readConfigFile.
  destruct name as [|c name]; [done|].
  rewrite Hload. simpl read_property. rewrite Hfiles.
  rewrite get_extend_config. simpl own_properties. rewrite Hfiles.
  rewrite resolve_files_strings. eexists. split; [reflexivity|].
  by rewrite !get_set_prop.
Qed.

Lemma readConfigFile_resolves_files_witness :
  exists config,
    readConfigFile (NL := demo_node) demo_fs_config (Some "/p/tsconfig.json")
      demo_loader None = Some config
    /\ get_prop "files" config = Some (JArray [JString "/p/src/a.ts"]).
Proof.
  apply (readConfigFile_resolves_files (NL := demo_node) demo_fs_config
           "/p/tsconfig.json" demo_loader None
           [("compilerOptions", JObject [("target", JString "es6")]);
            ("files", JArray [JString "src/a.ts"])]
           ["src/a.ts"]).
  - discriminate.
  - reflexivity.
  - reflexivity.
Defined.

(** X21. [readConfigFile] throws exactly when a configuration file is
    named and it cannot be read or parsed, or parses to [null], or lists
    under [files] something that is not a string. *)
Theorem readConfigFile_throws `{NL : NodeLib} (fs : FileSystem)
    (configFile : option string) (loader : WebPackLoader)
    (additionalOptions : option JsValue) :
  readConfigFile fs configFile loader additionalOptions = None
  <-> exists name,
        configFile = Some name /\ name <> ""
        /\ (loadConfigFile fs name = None
            \/ loadConfigFile fs name = Some JNull
            \/ exists props items item,
                 loadConfigFile fs name = Some (JObject props)
                 /\ get_prop "files" props = Some (JArray items)
                 /\ item ∈ items
                 /\ forall s, item <> JString s).
Proof.
  unfold readConfigFile. split.
  - destruct configFile as [[|c name]|]; [discriminate | | discriminate].
    intros H. exists (String c name). split; [done|]. split; [done|].
    destruct (loadConfigFile fs (String c name)) as [tsconfig|] eqn:Hload;
      [|by left].
    right. destruct tsconfig as [| b | n | s | l | props];
      [by left | discriminate.. |].
    right. simpl read_property in H.
    rewrite get_extend_config in H. simpl own_properties in H.
    destruct (get_prop "files" props) as [[| | | | items |]|] eqn:Hf;
      try discriminate.
    destruct (resolve_files (dirname (String c name)) items) eqn:Hr;
      [discriminate|].
    apply resolve_files_None in Hr as (item & Hin & Hs).
    by exists props, items, item.
  - intros (name & -> & Hne & Hcase). destruct name as [|c name]; [done|].
    destruct Hcase as [-> | [-> | (props & items & item & -> & Hf & Hin & Hs)]];
      [done | done |].
    simpl read_property. rewrite Hf, get_extend_config. simpl own_properties.
    rewrite Hf.
    assert (Hr : resolve_files (dirname (String c name)) items = None).
    { apply resolve_files_None. by exists item. }
    by rewrite Hr.
Qed.

Lemma readConfigFile_throws_witness :
  readConfigFile (NL := demo_node) demo_fs_config (Some "/p/null.json")
    demo_loader None = None
  /\ readConfigFile (NL := demo_node) demo_fs_config (Some "/p/missing.json")
       demo_loader None = None.
Proof.
  split.
  - apply (proj2 (readConfigFile_throws (NL := demo_node) demo_fs_config
                    (Some "/p/null.json") demo_loader None)).
    exists "/p/null.json". split; [reflexivity|]. split; [discriminate|].
    right. left. reflexivity.
  - apply (proj2 (readConfigFile_throws (NL := demo_node) demo_fs_config
                    (Some "/p/missing.json") demo_loader None)).
    exists "/p/missing.json". split; [reflexivity|]. split; [discriminate|].
    left. reflexivity.
Defined.

(** ** The search for the configuration file *)

Lemma findConfigFile_loop_found `{NL : NodeLib} (fs : FileSystem) (fuel : nat) :
  forall (dir configFile : string),
    findConfigFile_loop fuel fs dir = Found configFile ->
    exists n,
      configFile = resolve (ancestor n dir) "tsconfig.json"
      /\ fileExists fs configFile = true
      /\ forall m, (m < n)%nat ->
           fileExists fs (resolve (ancestor m dir) "tsconfig.json") = false.
Proof.
  induction fuel as [|fuel IH]; intros dir configFile H; simpl in H;
    [discriminate|].
  destruct (fileExists fs (resolve dir "tsconfig.json")) eqn:He.
  - inversion H; subst. exists 0%nat. split; [done|]. split; [done|]. lia.
  - destruct (String.eqb dir (dirname dir)); [discriminate|].
    destruct (statSync fs (dirname dir)) as [st|]; [|discriminate].
    destruct (isDirectory st); [|discriminate].
    destruct (IH _ _ H) as (n & Hc & Hex & Hnear).
    exists (S n). split; [done|]. split; [done|].
    intros [|m] Hm; simpl; [done|]. apply Hnear. lia.
Qed.

(** X22. A configuration file that [findConfigFile] returns is a file on
    disk named [tsconfig.json] in the directory the search starts from (the
    path itself when it is a directory, else its [dirname]) or in one of
    its parents, and no directory nearer to the start has one. *)
Theorem findConfigFile_nearest `{NL : NodeLib} (fuel : nat) (fs : FileSystem)
    (path configFile : string) :
  findConfigFile fuel fs path = Found configFile ->
  exists st n,
    statSync fs path = Some st
    /\ let start := if isDirectory st then path else dirname path in
       configFile = resolve (ancestor n start) "tsconfig.json"
       /\ fileExists fs configFile = true
       /\ forall m, (m < n)%nat ->
            fileExists fs (resolve (ancestor m start) "tsconfig.json") = false.
Proof.
  unfold findConfigFile. destruct (statSync fs path) as [st|]; [|discriminate].
  intros H. destruct (findConfigFile_loop_found _ _ _ _ H) as (n & Hn).
  by exists st, n.
Qed.

Lemma findConfigFile_nearest_witness :
  exists n,
    "/p/tsconfig.json"
    = resolve (NodeLib := demo_node) (ancestor (NL := demo_node) n "/p/src")
        "tsconfig.json"
    /\ fileExists demo_fs_config "/p/tsconfig.json" = true
    /\ forall m, (m < n)%nat ->
         fileExists demo_fs_config
           (resolve (NodeLib := demo_node) (ancestor (NL := demo_node) m "/p/src")
              "tsconfig.json") = false.
Proof.
  destruct (findConfigFile_nearest (NL := demo_node) 5 demo_fs_config
              "/p/src/a.ts" "/p/tsconfig.json" eq_refl)
    as (st & n & Hst & Hn).
  vm_compute in Hst. inversion Hst; subst st. exists n. exact Hn.
Defined.

Lemma findConfigFile_loop_not_found `{NL : NodeLib} (fs : FileSystem)
    (fuel : nat) :
  forall dir : string,
    findConfigFile_loop fuel fs dir = NotFound ->
    exists n,
      (forall m, (m <= n)%nat ->
         fileExists fs (resolve (ancestor m dir) "tsconfig.json") = false)
      /\ (dirname (ancestor n dir) = ancestor n dir
          \/ exists st, statSync fs (dirname (ancestor n dir)) = Some st
                        /\ isDirectory st = false).
Proof.
  induction fuel as [|fuel IH]; intros dir H; simpl in H; [discriminate|].
  destruct (fileExists fs (resolve dir "tsconfig.json")) eqn:He;
    [discriminate|].
  destruct (String.eqb dir (dirname dir)) eqn:Heq.
  - apply String.eqb_eq in Heq. exists 0%nat. split.
    + intros m Hm. by replace m with 0%nat by lia.
    + left. by simpl.
  - destruct (statSync fs (dirname dir)) as [st|] eqn:Hst; [|discriminate].
    destruct (isDirectory st) eqn:Hd.
    + destruct (IH _ H) as (n & Hnone & Hstop). exists (S n). split; [|done].
      intros [|m] Hm; simpl; [done|]. apply Hnone. lia.
    + exists 0%nat. split.
      * intros m Hm. by replace m with 0%nat by lia.
      * right. by exists st.
Qed.

(** X23. When [findConfigFile] returns nothing, no directory from the
    start of the search up to the one where it stopped has a file named
    [tsconfig.json], and it stopped where [dirname] no longer moves (the
    root) or below something that is not a directory. *)
Theorem findConfigFile_none `{NL : NodeLib} (fuel : nat) (fs : FileSystem)
    (path : string) :
  findConfigFile fuel fs path = NotFound ->
  exists st n,
    statSync fs path = Some st
    /\ let start := if isDirectory st then path else dirname path in
       (forall m, (m <= n)%nat ->
          fileExists fs (resolve (ancestor m start) "tsconfig.json") = false)
       /\ (dirname (ancestor n start) = ancestor n start
           \/ exists st', statSync fs (dirname (ancestor n start)) = Some st'
                          /\ isDirectory st' = false).
Proof.
  unfold findConfigFile. destruct (statSync fs path) as [st|]; [|discriminate].
  intros H. destruct (findConfigFile_loop_not_found _ _ _ H) as (n & Hn).
  by exists st, n.
Qed.

Lemma findConfigFile_none_witness :
  exists n,
    forall m, (m <= n)%nat ->
      fileExists demo_fs_config
        (resolve (NodeLib := demo_node) (ancestor (NL := demo_node) m "/")
           "tsconfig.json") = false.
Proof.
  destruct (findConfigFile_none (NL := demo_node) 1 demo_fs_config "/" eq_refl)
    as (st & n & Hst & Hn & _).
  vm_compute in Hst. inversion Hst; subst st. exists n. exact Hn.
Defined.

Lemma findConfigFile_loop_enough `{NL : NodeLib} (rank : string -> nat)
    (fs : FileSystem) :
  (forall d, dirname d <> d -> (rank (dirname d) < rank d)%nat) ->
  forall (fuel : nat) (dir : string),
    (rank dir < fuel)%nat ->
    findConfigFile_loop fuel fs dir <> OutOfFuel
    /\ forall fuel', (fuel <= fuel')%nat ->
         findConfigFile_loop fuel' fs dir = findConfigFile_loop fuel fs dir.
Proof.
  intros Hrank. induction fuel as [|fuel IH]; intros dir Hlt; [lia|].
  assert (Hstep : dirname dir <> dir ->
            findConfigFile_loop fuel fs (dirname dir) <> OutOfFuel
            /\ forall fuel', (fuel <= fuel')%nat ->
                 findConfigFile_loop fuel' fs (dirname dir)
                 = findConfigFile_loop fuel fs (dirname dir)).
  { intros Hne. apply IH. specialize (Hrank dir Hne). lia. }
  split.
  - simpl. destruct (fileExists fs (resolve dir "tsconfig.json")); [done|].
    destruct (String.eqb dir (dirname dir)) eqn:Heq; [done|].
    apply String.eqb_neq in Heq.
    destruct (statSync fs (dirname dir)) as [st|]; [|done].
    destruct (isDirectory st); [|done]. apply Hstep. congruence.
  - intros [|fuel'] Hle; [lia|]. simpl.
    destruct (fileExists fs (resolve dir "tsconfig.json")); [done|].
    destruct (String.eqb dir (dirname dir)) eqn:Heq; [done|].
    apply String.eqb_neq in Heq.
    destruct (statSync fs (dirname dir)) as [st|]; [|done].
    destruct (isDirectory st); [|done].
    apply Hstep; [congruence | lia].
Qed.

(** X24. The search ends: when every step of [dirname] that moves lowers
    some rank of the path (as it does for the length of an absolute path),
    a step bound above the rank of the path is never exhausted, and no
    larger bound changes the result. *)
Theorem findConfigFile_terminates `{NL : NodeLib} (rank : string -> nat)
    (fs : FileSystem) (path : string) (fuel : nat) :
  (forall d, dirname d <> d -> (rank (dirname d) < rank d)%nat) ->
  (rank path < fuel)%nat ->
  findConfigFile fuel fs path <> OutOfFuel
  /\ forall fuel', (fuel <= fuel')%nat ->
       findConfigFile fuel' fs path = findConfigFile fuel fs path.
Proof.
  intros Hrank Hlt. unfold findConfigFile.
  destruct (statSync fs path) as [st|]; [|done].
  apply (findConfigFile_loop_enough rank); [done|].
  destruct (isDirectory st); [done|].
  destruct (decide (dirname path = path)) as [-> | Hne]; [done|].
  specialize (Hrank path Hne). lia.
Qed.

Lemma findConfigFile_terminates_witness :
  findConfigFile (NL := demo_node) 12 demo_fs_config "/p/src/a.ts" <> OutOfFuel
  /\ findConfigFile (NL := demo_node) 100 demo_fs_config "/p/src/a.ts"
     = findConfigFile (NL := demo_node) 12 demo_fs_config "/p/src/a.ts".
Proof.
  destruct (findConfigFile_terminates (NL := demo_node) String.length
              demo_fs_config "/p/src/a.ts" 12) as [Hend Hsame].
  - intros d Hne. simpl in *.
    repeat match goal with
           | |- context [String.eqb d ?s] =>
               let E := fresh "E" in
               destruct (String.eqb d s) eqn:E;
               [apply String.eqb_eq in E; subst d; simpl; lia|]
           end.
    repeat match goal with
           | H : String.eqb d _ = false |- _ => rewrite H in Hne
           end.
    done.
  - simpl. lia.
  - split; [exact Hend | apply Hsame; lia].
Defined.
